(** * worldmonitor: the desktop sidecar gateway and the client runtime shim

    A shallow embedding of
      - [src-tauri/sidecar/local-api-server.mjs]: the loopback gateway
        (endpoint naming, cloud proxy, dispatcher, request callback);
      - the client runtime module: desktop detection, base URLs and the
        fetch patch;
    followed by the properties of these two programs.

    What the embedding takes from the platform rather than from the source:
      - the file system, the module loader, the clock and the network are a
        [Host] record; every call to them is recorded in a trace;
      - the inbound body is a finite list of chunks that [readBody] drains,
        as iterating a Node readable stream does; a drained stream yields no
        chunk to a second iteration;
      - [requestUrl] is the already parsed URL; the [Request] constructor is
        the host's and may throw; the writes on [res] are total;
      - [Headers] is the header list, in insertion order: its enumeration
        through the platform (sorted by name, repeated values combined) is
        not modelled;
      - strings are sequences of 8-bit characters. *)

From Stdlib Require Import ZArith Ascii String Strings.Byte Lia.
From stdpp Require Import base strings gmap list pretty.

Open Scope string_scope.

(** ** JavaScript string primitives used by both programs *)

Module JsString.

(** [s.startsWith(p)] *)
Definition startsWith (s p : string) : bool := String.prefix p s.

(** The rest of [s] after the literal [p], when [s] begins with [p]. *)
Fixpoint dropPrefix (p s : string) : option string :=
  match p, s with
  | EmptyString, _ => Some s
  | String a p', String b s' =>
      if Ascii.eqb a b then dropPrefix p' s' else None
  | String _ _, EmptyString => None
  end.

(** [s.replace(/^p/, '')] for a literal [p]: the anchored pattern matches
    at most once, at offset 0. *)
Definition replaceLeading (p s : string) : string :=
  match dropPrefix p s with
  | Some rest => rest
  | None => s
  end.

(** [s.replace(/\/$/, '')]: without the [m] flag [$] matches only at the end
    of the input, so exactly one final slash is removed when there is one. *)
Fixpoint replaceTrailingSlash (s : string) : string :=
  match s with
  | EmptyString => EmptyString
  | String c rest =>
      match rest with
      | EmptyString => if Ascii.eqb c "/" then EmptyString else s
      | String _ _ => String c (replaceTrailingSlash rest)
      end
  end.

(** Truthiness of a string: the empty string is the only falsy one. *)
Definition truthy (s : string) : bool :=
  match s with
  | EmptyString => false
  | String _ _ => true
  end.

(** [s || d] on strings. *)
Definition orElse (s d : string) : string := if truthy s then s else d.

(** [list.includes(x)] on an array of strings. *)
Definition includes (l : list string) (x : string) : bool :=
  existsb (String.eqb x) l.

End JsString.

(** ** [JSON.stringify] on the values the gateway serialises *)

Module JSON.

#[local] Set Warnings "-register-all".

Inductive Json : Type :=
| JNull
| JBool (b : bool)
| JNum (n : Z)
| JStr (s : string)
| JArr (items : list Json)
| JObj (members : list (string * Json)).

Definition dquote : ascii := "034"%char.
Definition backslash : ascii := "092"%char.

Definition hexDigit (n : nat) : ascii :=
  match String.get n "0123456789abcdef" with
  | Some c => c
  | None => "0"%char
  end.

(** One character of a quoted JSON string: the quote, the backslash and the
    control characters are escaped, everything else is copied. *)
Definition escapeChar (c : ascii) : string :=
  let n := nat_of_ascii c in
  if Ascii.eqb c dquote then String backslash (String dquote "")
  else if Ascii.eqb c backslash then String backslash (String backslash "")
  else if Nat.eqb n 8 then String backslash "b"
  else if Nat.eqb n 9 then String backslash "t"
  else if Nat.eqb n 10 then String backslash "n"
  else if Nat.eqb n 12 then String backslash "f"
  else if Nat.eqb n 13 then String backslash "r"
  else if Nat.ltb n 32 then
    String backslash
      ("u00" +:+ String (hexDigit (n / 16)) (String (hexDigit (n mod 16)) ""))
  else String c "".

Fixpoint escape (s : string) : string :=
  match s with
  | EmptyString => EmptyString
  | String c rest => escapeChar c +:+ escape rest
  end.

Definition quote (s : string) : string :=
  String dquote (escape s) +:+ String dquote "".

Fixpoint stringify (j : Json) : string :=
  match j with
  | JNull => "null"
  | JBool true => "true"
  | JBool false => "false"
  | JNum n => pretty n
  | JStr s => quote s
  | JArr items =>
      "[" +:+
      (fix elements (l : list Json) : string :=
         match l with
         | [] => ""
         | x :: l' =>
             stringify x +:+
             match l' with [] => "" | _ :: _ => "," +:+ elements l' end
         end) items
      +:+ "]"
  | JObj members =>
      "{" +:+
      (fix fields (l : list (string * Json)) : string :=
         match l with
         | [] => ""
         | (k, v) :: l' =>
             quote k +:+ ":" +:+ stringify v +:+
             match l' with [] => "" | _ :: _ => "," +:+ fields l' end
         end) members
      +:+ "}"
  end.

End JSON.

(** ** Values exchanged by the gateway *)

(** A thrown JavaScript value. *)
Inductive JsError : Type :=
| Error (message : string)
| TypeError (message : string).

Definition errorMessage (e : JsError) : string :=
  match e with
  | Error m => m
  | TypeError m => "TypeError: " +:+ m
  end.

(** Completion of an awaited computation: a value, or a rejection. *)
Inductive Outcome (A : Type) : Type :=
| Returned (a : A)
| Thrown (e : JsError).
Arguments Returned {A} a.
Arguments Thrown {A} e.

(** [Headers]: the (name, value) entries of the header list, in insertion
    order, repeated names allowed. Names and values are those that Node's
    parser has accepted, so that [append] and [set] do not throw; the
    enumeration of the object (sorted by name, repeated values combined) is
    not modelled. *)
Definition Headers : Type := list (string * string).

(** A value of Node's [req.headers] object. *)
Inductive NodeHeaderValue : Type :=
| HeaderString (v : string)
| HeaderArray (vs : list string)
| HeaderUndefined.

(** The parsed [requestUrl]. *)
Record URL : Type := mkURL {
  origin : string;
  pathname : string;
  search : string
}.

Definition URL_toString (u : URL) : string :=
  origin u +:+ pathname u +:+ search u.

(** Node's [IncomingMessage], without its body stream (the stream is mutable
    and lives in the state, see [Sys]). [req_url] is
    [new URL(req.url || '/', base)], already parsed. *)
Record IncomingMessage : Type := mkIncoming {
  req_method : string;
  req_url : URL;
  req_headers : list (string * NodeHeaderValue)
}.

(** The second argument of [fetch] and of [new Request]. *)
Record RequestInit : Type := mkInit {
  init_method : string;
  init_headers : Headers;
  init_body : option (list byte)
}.

(** A WHATWG [Request] as handed to a handler module. *)
Record Request : Type := mkRequest {
  request_url : string;
  request_init : RequestInit
}.

(** A WHATWG [Response]. *)
Record Response : Type := mkResponse {
  status : Z;
  headers : Headers;
  body : list byte
}.

(** The namespace object of an imported handler module, reduced to its
    [default] export. *)
Inductive DefaultExport : Type :=
| NotCallable
| Callable (handler : Request -> Outcome Response).

(** Lines 7-11: the process-wide configuration. *)
Record RuntimeConfig : Type := mkConfig {
  port : Z;
  remoteBase : string;
  apiDir : string;
  mode : string
}.

(** Line 8: [(process.env.LOCAL_API_REMOTE_BASE || 'https://worldmonitor.app')
    .replace(/\/$/, '')]. *)
Definition remoteBaseOfEnv (LOCAL_API_REMOTE_BASE : option string) : string :=
  JsString.replaceTrailingSlash
    (JsString.orElse (default "" LOCAL_API_REMOTE_BASE)
       "https://worldmonitor.app").

(** What the gateway asks of its host: the file system, the module loader,
    the clock, the [Request] constructor (which throws a TypeError on the
    inputs it refuses, a TRACE method for one) and the network. *)
Record Host : Type := mkHost {
  existsSync : string -> bool;
  path_join : string -> string -> string;
  pathToFileURL_href : string -> string;
  Date_now : Z;
  Date_toISOString : string;
  import_ : string -> Outcome DefaultExport;
  new_Request : string -> RequestInit -> Outcome Request;
  fetch : string -> RequestInit -> Outcome Response
}.

(** Observable interactions of one request, oldest first. *)
Inductive Event : Type :=
| ExistsSync (path : string)
| ImportModule (specifier : string)
| Invoke (request : Request)
| Fetch (target : string) (init : RequestInit)
| ConsoleError (args : list string).

(** The mutable state of one request: the chunks still unread on the inbound
    body stream, and the interactions so far. *)
Record Sys : Type := mkSys {
  inbound : list (list byte);
  trace : list Event
}.

Definition emit (ev : Event) (s : Sys) : Sys :=
  {| inbound := inbound s; trace := (trace s ++ [ev])%list |}.

(** ** Async functions: state passing with rejection *)

Definition Async (A : Type) : Type := Sys -> Outcome A * Sys.

Definition ret {A} (a : A) : Async A := fun s => (Returned a, s).

Definition throw {A} (e : JsError) : Async A := fun s => (Thrown e, s).

Definition bind {A B} (m : Async A) (k : A -> Async B) : Async B :=
  fun s =>
    match m s with
    | (Returned a, s') => k a s'
    | (Thrown e, s') => (Thrown e, s')
    end.

(** [try { m } catch (error) { h error }] *)
Definition tryCatch {A} (m : Async A) (h : JsError -> Async A) : Async A :=
  fun s =>
    match m s with
    | (Returned a, s') => (Returned a, s')
    | (Thrown e, s') => h e s'
    end.

(** An awaited value that is already settled. *)
Definition settle {A} (o : Outcome A) : Async A := fun s => (o, s).

Definition log (ev : Event) : Async unit := fun s => (Returned tt, emit ev s).

Declare Scope async_scope.
Delimit Scope async_scope with async.
Notation "x <- m ;; k" := (bind m (fun x => k))
  (at level 100, m at next level, right associativity) : async_scope.
Notation "m ;;; k" := (bind m (fun _ => k))
  (at level 100, right associativity) : async_scope.
Open Scope async_scope.

(** ** local-api-server.mjs *)

(** [json(data, status)] (the [extraHeaders] argument is never passed). *)
Definition json (data : JSON.Json) (st : Z) : Response :=
  {| status := st;
     headers := [("content-type", "application/json")];
     body := list_byte_of_string (JSON.stringify data) |}.

(** [readBody(req)]: drains the inbound stream. Whatever was read is gone
    from the stream afterwards; a stream with no chunk left gives
    [undefined]. *)
Definition readBody : Async (option (list byte)) :=
  fun s =>
    let chunks := inbound s in
    (Returned (match chunks with
               | [] => None
               | _ :: _ => Some (concat chunks)
               end),
     {| inbound := []; trace := trace s |}).

Definition Headers_append (h : Headers) (key value : string) : Headers :=
  (h ++ [(key, value)])%list.

Definition Headers_set (h : Headers) (key value : string) : Headers :=
  (List.filter (fun kv => negb (String.eqb (fst kv) key)) h ++ [(key, value)])%list.

(** [toHeaders(nodeHeaders)] *)
Definition toHeaders (nodeHeaders : list (string * NodeHeaderValue)) : Headers :=
  fold_left
    (fun hs entry =>
       match entry with
       | (key, HeaderArray vs) =>
           fold_left (fun hs' v => Headers_append hs' key v) vs hs
       | (key, HeaderString v) => Headers_set hs key v
       | (_, HeaderUndefined) => hs
       end)
    nodeHeaders [].

(** [endpointFromPath(pathname)] *)
Definition endpointFromPath (pathname : string) : string :=
  JsString.orElse
    (JsString.replaceTrailingSlash (JsString.replaceLeading "/api/" pathname))
    "index".

(** [handleServiceStatus()] *)
Definition handleServiceStatus (cfg : RuntimeConfig) (h : Host) : Async Response :=
  let service id name category description :=
    JSON.JObj [("id", JSON.JStr id); ("name", JSON.JStr name);
               ("category", JSON.JStr category);
               ("status", JSON.JStr "operational");
               ("description", JSON.JStr description)] in
  ret (json
    (JSON.JObj
       [("success", JSON.JBool true);
        ("timestamp", JSON.JStr (Date_toISOString h));
        ("summary",
          JSON.JObj [("operational", JSON.JNum 2); ("degraded", JSON.JNum 0);
                     ("outage", JSON.JNum 0); ("unknown", JSON.JNum 0)]);
        ("services",
          JSON.JArr
            [service "local-api" "Local Desktop API" "dev"
               ("Running on 127.0.0.1:" +:+ pretty (port cfg));
             service "cloud-pass-through" "Cloud pass-through" "cloud"
               ("Fallback target " +:+ remoteBase cfg)]);
        ("local",
          JSON.JObj [("enabled", JSON.JBool true); ("mode", JSON.JStr (mode cfg));
                     ("port", JSON.JNum (port cfg));
                     ("remoteBase", JSON.JStr (remoteBase cfg))])])
    200).

(** [['GET', 'HEAD'].includes(req.method) ? undefined : await readBody(req)] *)
Definition bodyOf (req : IncomingMessage) : Async (option (list byte)) :=
  if JsString.includes ["GET"; "HEAD"] (req_method req) then ret None
  else readBody.

(** [await fetch(target, init)]: the host decides the outcome. *)
Definition awaitFetch (h : Host) (target : string) (init : RequestInit)
  : Async Response :=
  log (Fetch target init);;; settle (fetch h target init).

(** [proxyToCloud(requestUrl, req)] *)
Definition proxyToCloud (cfg : RuntimeConfig) (h : Host)
    (requestUrl : URL) (req : IncomingMessage) : Async Response :=
  let target := remoteBase cfg +:+ pathname requestUrl +:+ search requestUrl in
  body <- bodyOf req;;
  upstream <- awaitFetch h target
    {| init_method := req_method req;
       init_headers := toHeaders (req_headers req);
       init_body := body |};;
  ret upstream.

(** The [try] block of [dispatch] (lines 82-94). *)
Definition localHandler (h : Host) (endpoint modulePath : string)
    (requestUrl : URL) (req : IncomingMessage) : Async Response :=
  let specifier :=
    pathToFileURL_href h modulePath +:+ "?v=" +:+ pretty (Date_now h) in
  mod_default <- (log (ImportModule specifier);;; settle (import_ h specifier));;
  match mod_default with
  | NotCallable =>
      ret (json (JSON.JObj
                   [("error", JSON.JStr ("Invalid handler for " +:+ endpoint))])
             500)
  | Callable handler =>
      body <- bodyOf req;;
      request <- settle (new_Request h (URL_toString requestUrl)
                           {| init_method := req_method req;
                              init_headers := toHeaders (req_headers req);
                              init_body := body |});;
      log (Invoke request);;; settle (handler request)
  end.

(** [dispatch(requestUrl, req)] *)
Definition dispatch (cfg : RuntimeConfig) (h : Host)
    (requestUrl : URL) (req : IncomingMessage) : Async Response :=
  if String.eqb (pathname requestUrl) "/api/service-status" then
    handleServiceStatus cfg h
  else if String.eqb (pathname requestUrl) "/api/local-status" then
    ret (json (JSON.JObj
                 [("success", JSON.JBool true); ("mode", JSON.JStr (mode cfg));
                  ("port", JSON.JNum (port cfg));
                  ("apiDir", JSON.JStr (apiDir cfg));
                  ("remoteBase", JSON.JStr (remoteBase cfg))])
           200)
  else
    let endpoint := endpointFromPath (pathname requestUrl) in
    let modulePath := path_join h (apiDir cfg) (endpoint +:+ ".js") in
    found <- (log (ExistsSync modulePath);;; ret (existsSync h modulePath));;
    if negb found then proxyToCloud cfg h requestUrl req
    else
      tryCatch
        (localHandler h endpoint modulePath requestUrl req)
        (fun error =>
           log (ConsoleError
                  ["[local-api] handler failed, using cloud fallback";
                   endpoint; errorMessage error]);;;
           tryCatch
             (proxyToCloud cfg h requestUrl req)
             (fun _ =>
                ret (json (JSON.JObj
                             [("error",
                               JSON.JStr "Local handler failed and cloud fallback unavailable")])
                       502))).

(** What the callback writes on [res]: [writeHead(status, headers)] then
    [end(body)]. *)
Record Written : Type := mkWritten {
  written_status : Z;
  written_headers : Headers;
  written_body : list byte
}.

(** [Object.fromEntries(entries)]: a later entry replaces an earlier one of
    the same name. *)
Definition fromEntries (entries : Headers) : Headers :=
  fold_left (fun o kv => Headers_set o (fst kv) (snd kv)) entries [].

(** The callback given to [createServer] (lines 105-124). *)
Definition createServerCallback (cfg : RuntimeConfig) (h : Host)
    (req : IncomingMessage) : Async Written :=
  let requestUrl := req_url req in
  if negb (JsString.startsWith (pathname requestUrl) "/api/") then
    ret {| written_status := 404;
           written_headers := [("content-type", "application/json")];
           written_body :=
             list_byte_of_string
               (JSON.stringify (JSON.JObj [("error", JSON.JStr "Not found")])) |}
  else
    tryCatch
      (response <- dispatch cfg h requestUrl req;;
       ret {| written_status := status response;
              written_headers := fromEntries (headers response);
              written_body := body response |})
      (fun error =>
         log (ConsoleError ["[local-api] fatal"; errorMessage error]);;;
         ret {| written_status := 500;
                written_headers := [("content-type", "application/json")];
                written_body :=
                  list_byte_of_string
                    (JSON.stringify
                       (JSON.JObj [("error", JSON.JStr "Internal server error")])) |}).

(** The EndpointName of a path as the specification words it: strip the
    reserved prefix, strip a trailing slash, name the empty result "index". *)
Module EndpointSpec.

Definition ReservedPrefix : string := "/api/".

Definition StripPrefix (p q : string) : Prop :=
  p = ReservedPrefix +:+ q \/ ((forall t, p <> ReservedPrefix +:+ t) /\ q = p).

Definition StripSlash (q r : string) : Prop :=
  q = r +:+ "/" \/ ((forall t, q <> t +:+ "/") /\ r = q).

Definition Sentinel (r e : string) : Prop :=
  (r = "" /\ e = "index") \/ (r <> "" /\ e = r).

Definition EndpointName (p e : string) : Prop :=
  exists q r, StripPrefix p q /\ StripSlash q r /\ Sentinel r e.

End EndpointSpec.

(** ** The client runtime module *)

(** The function held by [window.fetch]: the browser's own, or the closure
    built by [installRuntimeFetchPatch] around the previous one. *)
Inductive FetchFunction : Type :=
| NativeFetch
| PatchedFetch (nativeFetch : FetchFunction) (localBase remoteBase : string).

(** Values of the properties of [window] that the module reads or writes. *)
Inductive JsValue : Type :=
| JsUndefined
| JsNull
| JsBoolean (b : bool)
| JsNumber (n : Z)
| JsText (s : string)
| JsObject
| JsFetch (f : FetchFunction).

Definition truthy (v : JsValue) : bool :=
  match v with
  | JsUndefined | JsNull => false
  | JsBoolean b => b
  | JsNumber n => negb (Z.eqb n 0)
  | JsText s => JsString.truthy s
  | JsObject | JsFetch _ => true
  end.

(** The global execution context: [None] when [typeof window] is
    ['undefined'], otherwise the properties of [window]. *)
Abbreviation Global := (option (gmap string JsValue)).

(** [import.meta.env] *)
Abbreviation ImportMetaEnv := (gmap string string).

(** [key in w] *)
Definition hasProperty (w : gmap string JsValue) (key : string) : bool :=
  match w !! key with
  | Some _ => true
  | None => false
  end.

(** [w[key]] *)
Definition getProperty (w : gmap string JsValue) (key : string) : JsValue :=
  default JsUndefined (w !! key).

Definition DEFAULT_REMOTE_HOSTS : gmap string string :=
  <["tech" := "https://tech.worldmonitor.app"]>
    (<["full" := "https://worldmonitor.app"]>
       (<["world" := "https://worldmonitor.app"]> ∅)).

Definition DEFAULT_LOCAL_API_BASE : string := "http://127.0.0.1:46123".

(** [normalizeBaseUrl(baseUrl)] *)
Definition normalizeBaseUrl (baseUrl : string) : string :=
  JsString.replaceTrailingSlash baseUrl.

(** [isDesktopRuntime()] *)
Definition isDesktopRuntime (g : Global) : bool :=
  match g with
  | None => false
  | Some window =>
      hasProperty window "__TAURI_INTERNALS__" || hasProperty window "__TAURI__"
  end.

(** [getApiBaseUrl()] *)
Definition getApiBaseUrl (env : ImportMetaEnv) (g : Global) : string :=
  if negb (isDesktopRuntime g) then ""
  else
    match env !! "VITE_TAURI_API_BASE_URL" with
    | Some configuredBaseUrl =>
        if JsString.truthy configuredBaseUrl
        then normalizeBaseUrl configuredBaseUrl
        else DEFAULT_LOCAL_API_BASE
    | None => DEFAULT_LOCAL_API_BASE
    end.

(** [getRemoteApiBaseUrl()]. [DEFAULT_REMOTE_HOSTS] holds its own three keys:
    a variant that names a member inherited by every object ("constructor",
    "toString", ...) is outside this definition. *)
Definition getRemoteApiBaseUrl (env : ImportMetaEnv) : string :=
  let byVariant :=
    let variant := JsString.orElse (default "" (env !! "VITE_VARIANT")) "world" in
    default
      (default "https://worldmonitor.app" (DEFAULT_REMOTE_HOSTS !! "world"))
      (DEFAULT_REMOTE_HOSTS !! variant) in
  match env !! "VITE_TAURI_REMOTE_API_BASE_URL" with
  | Some configuredRemoteBase =>
      if JsString.truthy configuredRemoteBase
      then normalizeBaseUrl configuredRemoteBase
      else byVariant
  | None => byVariant
  end.

(** [toRuntimeUrl(path)] *)
Definition toRuntimeUrl (env : ImportMetaEnv) (g : Global) (path : string)
  : string :=
  if negb (JsString.startsWith path "/") then path
  else
    let baseUrl := getApiBaseUrl env g in
    if negb (JsString.truthy baseUrl) then path
    else baseUrl +:+ path.

(** [installRuntimeFetchPatch()]: the outcome of the call and the global
    context it leaves. [window.fetch.bind(window)] throws when [window.fetch]
    is not a function. *)
Definition installRuntimeFetchPatch (env : ImportMetaEnv) (g : Global)
  : Outcome unit * Global :=
  match g with
  | None => (Returned tt, g)
  | Some window =>
      if negb (isDesktopRuntime g)
         || truthy (getProperty window "__wmFetchPatched")
      then (Returned tt, g)
      else
        match window !! "fetch" with
        | Some (JsFetch nativeFetch) =>
            let localBase := getApiBaseUrl env g in
            let remoteBase := getRemoteApiBaseUrl env in
            (Returned tt,
             Some (<["__wmFetchPatched" := JsBoolean true]>
                     (<["fetch" :=
                          JsFetch (PatchedFetch nativeFetch localBase remoteBase)]>
                        window)))
        | _ => (Thrown (TypeError "window.fetch.bind is not a function"), g)
        end
  end.

(** Calling the function held by [window.fetch] on a URL string, over a
    network that answers or rejects each absolute or relative URL. *)
Fixpoint callFetch (network : string -> Outcome Response)
    (f : FetchFunction) (url : string) : Outcome Response :=
  match f with
  | NativeFetch => network url
  | PatchedFetch nativeFetch localBase remoteBase =>
      if negb (JsString.startsWith url "/api/") then
        callFetch network nativeFetch url
      else
        match callFetch network nativeFetch (localBase +:+ url) with
        | Returned response => Returned response
        | Thrown _ => callFetch network nativeFetch (remoteBase +:+ url)
        end
  end.

(** How many patch closures wrap the native function. *)
Fixpoint patchDepth (f : FetchFunction) : nat :=
  match f with
  | NativeFetch => 0
  | PatchedFetch nativeFetch _ _ => S (patchDepth nativeFetch)
  end.

(** The patch depth of [window.fetch] in a global context (0 when there is
    no such function). *)
Definition fetchDepth (g : Global) : nat :=
  match g with
  | Some window =>
      match window !! "fetch" with
      | Some (JsFetch f) => patchDepth f
      | _ => 0
      end
  | None => 0
  end.

(** The global context after [n] successive calls. *)
Fixpoint installTimes (n : nat) (env : ImportMetaEnv) (g : Global) : Global :=
  match n with
  | O => g
  | S n' => installTimes n' env (snd (installRuntimeFetchPatch env g))
  end.

(** ** Bookkeeping for statements about the gateway *)

(** The body that [bodyOf] yields in a state, and the state it leaves. *)
Definition bodyIn (req : IncomingMessage) (s : Sys) : option (list byte) :=
  if JsString.includes ["GET"; "HEAD"] (req_method req) then None
  else match inbound s with
       | [] => None
       | _ :: _ => Some (concat (inbound s))
       end.

Definition afterBody (req : IncomingMessage) (s : Sys) : Sys :=
  if JsString.includes ["GET"; "HEAD"] (req_method req) then s
  else {| inbound := []; trace := trace s |}.

(** The bytes a client sent: all chunks of the untouched inbound stream. *)
Definition originalBody (s : Sys) : list byte := concat (inbound s).

(** The upstream URL of a request. *)
Definition targetOf (cfg : RuntimeConfig) (requestUrl : URL) : string :=
  remoteBase cfg +:+ pathname requestUrl +:+ search requestUrl.

(** The handler file and the import specifier that [dispatch] computes. *)
Definition modulePathOf (cfg : RuntimeConfig) (h : Host) (requestUrl : URL)
  : string :=
  path_join h (apiDir cfg) (endpointFromPath (pathname requestUrl) +:+ ".js").

Definition specifierOf (cfg : RuntimeConfig) (h : Host) (requestUrl : URL)
  : string :=
  pathToFileURL_href h (modulePathOf cfg h requestUrl)
  +:+ "?v=" +:+ pretty (Date_now h).

(** The [RequestInit] that both [proxyToCloud] and [dispatch] build from the
    inbound request in state [s]. *)
Definition initFor (req : IncomingMessage) (s : Sys) : RequestInit :=
  {| init_method := req_method req;
     init_headers := toHeaders (req_headers req);
     init_body := bodyIn req s |}.

(** The [RequestInit] built once the inbound stream has been drained. *)
Definition bodilessInit (req : IncomingMessage) : RequestInit :=
  {| init_method := req_method req;
     init_headers := toHeaders (req_headers req);
     init_body := None |}.

(** Neither of the two introspection paths. *)
Definition ordinaryPath (requestUrl : URL) : Prop :=
  pathname requestUrl <> "/api/service-status"
  /\ pathname requestUrl <> "/api/local-status".

(** The ways the [try] block of [dispatch], entered in state [s], is left by
    a throw, each with the init of the forward that the [catch] then makes:
    the import rejects, nothing having read the stream; or the stream has
    been read and the [Request] constructor or the handler throws. *)
Inductive LocalFailure (h : Host) (specifier : string) (requestUrl : URL)
    (req : IncomingMessage) (s : Sys) : JsError -> RequestInit -> Prop :=
| ImportThrows e :
    import_ h specifier = Thrown e ->
    LocalFailure h specifier requestUrl req s e (initFor req s)
| RequestThrows handler e :
    import_ h specifier = Returned (Callable handler) ->
    new_Request h (URL_toString requestUrl) (initFor req s) = Thrown e ->
    LocalFailure h specifier requestUrl req s e (bodilessInit req)
| InvocationThrows handler request e :
    import_ h specifier = Returned (Callable handler) ->
    new_Request h (URL_toString requestUrl) (initFor req s) = Returned request ->
    handler request = Thrown e ->
    LocalFailure h specifier requestUrl req s e (bodilessInit req).

(** The upstream cannot be reached, whatever is sent. *)
Definition cloudUnreachable (h : Host) (target : string) (e : JsError) : Prop :=
  forall init, fetch h target init = Thrown e.

(** [{ error: message }] *)
Definition errorObject (message : string) : JSON.Json :=
  JSON.JObj [("error", JSON.JStr message)].

(** The text of [{ error: message }] once serialised, for a message that
    needs no escape: an opening brace, the quoted key, a colon, the quoted
    message, a closing brace. *)
Definition errorText (message : string) : string :=
  "{" +:+ String JSON.dquote "error" +:+ String JSON.dquote ":"
  +:+ String JSON.dquote message +:+ String JSON.dquote "}".

(** Whether an interaction is a call to the upstream. *)
Definition isFetch (ev : Event) : bool :=
  match ev with
  | Fetch _ _ => true
  | _ => false
  end.

(** ** Concrete hosts and requests *)

Module Scenario.

Definition cfg : RuntimeConfig :=
  {| port := 46123;
     remoteBase := remoteBaseOfEnv None;
     apiDir := "/opt/worldmonitor/api";
     mode := "desktop-sidecar" |}.

Definition cloudResponse : Response :=
  {| status := 200;
     headers := [("content-type", "text/plain")];
     body := list_byte_of_string "from the cloud" |}.

(** A host whose [api/] directory holds exactly [weather.js]. *)
Definition host (loaded : Outcome DefaultExport)
    (upstream : Outcome Response) : Host :=
  {| existsSync := fun p => String.eqb p "/opt/worldmonitor/api/weather.js";
     path_join := fun a b => a +:+ "/" +:+ b;
     pathToFileURL_href := fun p => "file://" +:+ p;
     Date_now := 1700000000000;
     Date_toISOString := "2023-11-14T22:13:20.000Z";
     import_ := fun _ => loaded;
     new_Request :=
       fun url init =>
         if JsString.includes ["CONNECT"; "TRACE"; "TRACK"] (init_method init)
         then Thrown (TypeError "HTTP method is unsupported")
         else Returned {| request_url := url; request_init := init |};
     fetch := fun _ _ => upstream |}.

Definition throwingHandler : Request -> Outcome Response :=
  fun _ => Thrown (Error "boom").

Definition offline : Outcome Response := Thrown (TypeError "fetch failed").

(** [weather.js] has no callable default export; the cloud answers. *)
Definition hostInvalid : Host := host (Returned NotCallable) (Returned cloudResponse).

(** [weather.js] does not load; the cloud answers. *)
Definition hostUnloadable : Host :=
  host (Thrown (Error "SyntaxError")) (Returned cloudResponse).

(** [weather.js] throws when invoked; the cloud answers. *)
Definition hostThrowing : Host :=
  host (Returned (Callable throwingHandler)) (Returned cloudResponse).

(** [weather.js] throws when invoked and the cloud cannot be reached. *)
Definition hostThrowingOffline : Host :=
  host (Returned (Callable throwingHandler)) offline.

Definition url (path query : string) : URL :=
  {| origin := "http://127.0.0.1:46123"; pathname := path; search := query |}.

Definition postWeather : IncomingMessage :=
  {| req_method := "POST";
     req_url := url "/api/weather" "?city=Oslo";
     req_headers := [("content-type", HeaderString "text/plain")] |}.

(** An endpoint with no handler file. *)
Definition getNews : IncomingMessage :=
  {| req_method := "GET";
     req_url := url "/api/news" "";
     req_headers := [] |}.

(** A path outside the reserved prefix. *)
Definition getPage : IncomingMessage :=
  {| req_method := "GET";
     req_url := url "/index.html" "";
     req_headers := [] |}.

(** The state on arrival of a request whose body came in two chunks. *)
Definition arrival : Sys :=
  {| inbound := [list_byte_of_string "temp="; list_byte_of_string "21"];
     trace := [] |}.

(** A desktop window, not yet patched. *)
Definition desktop : Global :=
  Some (<["__TAURI_INTERNALS__" := JsObject]>
          (<["fetch" := JsFetch NativeFetch]> ∅)).

(** A browser window. *)
Definition browser : Global := Some (<["fetch" := JsFetch NativeFetch]> ∅).

Definition override : ImportMetaEnv :=
  <["VITE_TAURI_API_BASE_URL" := "http://localhost:9000/"]> ∅.

End Scenario.

(** ** Further bookkeeping: kinds of interaction, header entries *)

Definition isImportModule (ev : Event) : bool :=
  match ev with
  | ImportModule _ => true
  | _ => false
  end.

Definition isInvoke (ev : Event) : bool :=
  match ev with
  | Invoke _ => true
  | _ => false
  end.

Definition isConsoleError (ev : Event) : bool :=
  match ev with
  | ConsoleError _ => true
  | _ => false
  end.

(** How many interactions of a kind a list holds. *)
Definition count (kind : Event -> bool) (evs : list Event) : nat :=
  length (List.filter kind evs).

(** The kind of an interaction. *)
Inductive Kind : Type :=
| FileCheck
| Load
| Invocation
| Diagnostic
| Forward.

Definition kindOf (ev : Event) : Kind :=
  match ev with
  | ExistsSync _ => FileCheck
  | ImportModule _ => Load
  | Invoke _ => Invocation
  | ConsoleError _ => Diagnostic
  | Fetch _ _ => Forward
  end.

(** The diagnostic of the [catch] in [dispatch]. *)
Definition handlerFailed (requestUrl : URL) (error : JsError) : Event :=
  ConsoleError
    ["[local-api] handler failed, using cloud fallback";
     endpointFromPath (pathname requestUrl); errorMessage error].

(** ** The function installed by [installRuntimeFetchPatch] (lines 66-78) *)

(** The first argument of [fetch]: a string, a [URL] (by its [toString()])
    or a [Request] (by its [url]). *)
Inductive RequestInfo : Type :=
| InfoString (s : string)
| InfoURL (href : string)
| InfoRequest (url : string).

(** [typeof input === 'string' ? input
     : input instanceof URL ? input.toString() : input.url] *)
Definition urlOfInput (input : RequestInfo) : string :=
  match input with
  | InfoString s => s
  | InfoURL href => href
  | InfoRequest url => url
  end.

(** What a call of [window.fetch] does: calls of the browser's own fetch and
    console warnings, oldest first. *)
Inductive ClientEvent : Type :=
| NativeCall (input : RequestInfo) (init : option RequestInit)
| ConsoleWarn (args : list string).

(** The browser's own fetch: an outcome for each input and init. *)
Abbreviation Network := (RequestInfo -> option RequestInit -> Outcome Response).

(** [window.fetch(input, init)] for the function held by [window.fetch]. *)
Fixpoint windowFetch (network : Network) (f : FetchFunction)
    (input : RequestInfo) (init : option RequestInit)
  : Outcome Response * list ClientEvent :=
  match f with
  | NativeFetch => (network input init, [NativeCall input init])
  | PatchedFetch nativeFetch localBase remoteBase =>
      let url := urlOfInput input in
      if negb (JsString.startsWith url "/api/") then
        windowFetch network nativeFetch input init
      else
        match windowFetch network nativeFetch
                (InfoString (localBase +:+ url)) init with
        | (Returned response, evs) => (Returned response, evs)
        | (Thrown error, evs) =>
            let (outcome, evs') :=
              windowFetch network nativeFetch
                (InfoString (remoteBase +:+ url)) init in
            (outcome,
             (evs ++
              ConsoleWarn
                ["[runtime] Local API fetch failed for " +:+ url
                 +:+ ", falling back to cloud"; errorMessage error]
              :: evs')%list)
        end
  end.

(** The function held by [window.fetch], when there is one. *)
Definition fetchOf (g : Global) : option FetchFunction :=
  match g with
  | Some window =>
      match window !! "fetch" with
      | Some (JsFetch f) => Some f
      | _ => None
      end
  | None => None
  end.

Definition isNativeCall (ev : ClientEvent) : bool :=
  match ev with
  | NativeCall _ _ => true
  | ConsoleWarn _ => false
  end.

(** ** Further concrete hosts and requests *)

Module Cases.

Definition handlerResponse : Response :=
  {| status := 201;
     headers := [("content-type", "application/json"); ("x-source", "local")];
     body := list_byte_of_string "{}" |}.

Definition workingHandler : Request -> Outcome Response :=
  fun _ => Returned handlerResponse.

(** [weather.js] answers; the cloud cannot be reached. *)
Definition hostWorkingOffline : Host :=
  Scenario.host (Returned (Callable workingHandler)) Scenario.offline.

(** [weather.js] does not load and the cloud cannot be reached. *)
Definition hostUnloadableOffline : Host :=
  Scenario.host (Thrown (Error "SyntaxError")) Scenario.offline.

(** No handler file for "news"; the cloud answers. *)
Definition postNews : IncomingMessage :=
  {| req_method := "POST";
     req_url := Scenario.url "/api/news" "?page=2";
     req_headers :=
       [("accept", HeaderString "*/*");
        ("set-cookie", HeaderArray ["a=1"; "b=2"]);
        ("x-empty", HeaderUndefined)] |}.

(** [weather.js] throws when invoked; the upstream answers a forward that
    carries a body and cannot be reached by one that carries none. *)
Definition hostPicky : Host :=
  {| existsSync := existsSync Scenario.hostThrowing;
     path_join := path_join Scenario.hostThrowing;
     pathToFileURL_href := pathToFileURL_href Scenario.hostThrowing;
     Date_now := Date_now Scenario.hostThrowing;
     Date_toISOString := Date_toISOString Scenario.hostThrowing;
     import_ := import_ Scenario.hostThrowing;
     new_Request := new_Request Scenario.hostThrowing;
     fetch :=
       fun _ init =>
         match init_body init with
         | Some _ => Returned Scenario.cloudResponse
         | None => Scenario.offline
         end |}.

(** A TRACE request, which the [Request] constructor refuses. *)
Definition traceWeather : IncomingMessage :=
  {| req_method := "TRACE";
     req_url := Scenario.url "/api/weather" "";
     req_headers := [] |}.

Definition getWeather : IncomingMessage :=
  {| req_method := "GET";
     req_url := Scenario.url "/api/weather/" "";
     req_headers := [("accept", HeaderString "*/*")] |}.

Definition getServiceStatus : IncomingMessage :=
  {| req_method := "GET";
     req_url := Scenario.url "/api/service-status" "";
     req_headers := [] |}.

(** A browser network on which only the remote origin answers. *)
Definition onlyRemote : Network :=
  fun input _ =>
    if JsString.startsWith (urlOfInput input) "https://worldmonitor.app"
    then Returned Scenario.cloudResponse
    else Thrown (TypeError "Failed to fetch").

(** A browser network on which every request is answered. *)
Definition allUp : Network := fun _ _ => Returned Scenario.cloudResponse.

End Cases.

(** * Properties *)

(** ** The string primitives *)

Section JsStringFacts.
Import JsString.

Lemma dropPrefix_Some p s q : dropPrefix p s = Some q <-> s = p +:+ q.
Proof.
  revert s; induction p as [|a p IH]; intros s; simpl.
  - split; [intros [= ->] | intros ->]; reflexivity.
  - destruct s as [|b s]; [split; discriminate|].
    destruct (Ascii.eqb_spec a b) as [->|Hne].
    + rewrite IH. split; [intros ->; reflexivity | intros [= ->]; reflexivity].
    + split; [discriminate | intros [= E _]; congruence].
Qed.

Lemma dropPrefix_None p s : dropPrefix p s = None <-> forall q, s <> p +:+ q.
Proof.
  split.
  - intros HN q Hq. apply dropPrefix_Some in Hq. congruence.
  - intros H. destruct (dropPrefix p s) as [q|] eqn:E; [|reflexivity].
    apply dropPrefix_Some in E. destruct (H q E).
Qed.

Lemma replaceTrailingSlash_app r : replaceTrailingSlash (r +:+ "/") = r.
Proof.
  induction r as [|c r IH]; [reflexivity|].
  change ((String c r) +:+ "/") with (String c (r +:+ "/")).
  simpl. rewrite IH.
  destruct r; reflexivity.
Qed.

Lemma replaceTrailingSlash_cases s :
  s = replaceTrailingSlash s +:+ "/"
  \/ (replaceTrailingSlash s = s /\ forall t, s <> t +:+ "/").
Proof.
  induction s as [|c s IH].
  - right. split; [reflexivity|]. intros [|? ?]; discriminate.
  - destruct s as [|d s].
    + simpl. destruct (Ascii.eqb_spec c "/") as [->|Hne].
      * left; reflexivity.
      * right. split; [reflexivity|].
        intros [|x [|y t]]; simpl; intros [= ]; try congruence.
    + destruct IH as [IH|[IH Hno]].
      * left. change (replaceTrailingSlash (String c (String d s)))
          with (String c (replaceTrailingSlash (String d s))).
        change (String c (replaceTrailingSlash (String d s)) +:+ "/")
          with (String c (replaceTrailingSlash (String d s) +:+ "/")).
        rewrite <- IH. reflexivity.
      * right. split.
        -- change (replaceTrailingSlash (String c (String d s)))
             with (String c (replaceTrailingSlash (String d s))).
           rewrite IH. reflexivity.
        -- intros [|x t]; [discriminate|].
           change (String x t +:+ "/") with (String x (t +:+ "/")).
           intros [= _ E]. exact (Hno t E).
Qed.

Lemma replaceTrailingSlash_id s :
  (forall t, s <> t +:+ "/") -> replaceTrailingSlash s = s.
Proof.
  intros H. destruct (replaceTrailingSlash_cases s) as [E|[E _]]; [|exact E].
  destruct (H _ E).
Qed.

Lemma truthy_true s : truthy s = true <-> s <> "".
Proof. destruct s; simpl; split; congruence. Qed.

Lemma startsWith_app s p : startsWith s p = true <-> exists t, s = p +:+ t.
Proof.
  unfold startsWith. revert s; induction p as [|a p IH]; intros s; simpl.
  - destruct s; split; eauto.
  - destruct s as [|b s]; simpl.
    + split; [discriminate | intros [t [=]]].
    + destruct (ascii_dec a b) as [->|Hne].
      * rewrite IH. split; intros [t E]; exists t; [rewrite E | injection E]; auto.
      * split; [discriminate | intros [t [= E _]]; congruence].
Qed.

End JsStringFacts.

(** C5. [endpointFromPath] is a total function whose graph is the
    specification's EndpointName relation: the reserved prefix "/api/" and one
    trailing slash are stripped, the empty result is named "index", and every
    path has exactly one EndpointName. *)
Theorem endpointFromPath_is_EndpointName (p e : string) :
  endpointFromPath p = e <-> EndpointSpec.EndpointName p e.
Proof.
  unfold endpointFromPath, JsString.replaceLeading, JsString.orElse.
  split.
  - intros <-.
    set (q := match JsString.dropPrefix "/api/" p with
              | Some rest => rest | None => p end).
    exists q, (JsString.replaceTrailingSlash q). split; [|split].
    + subst q. destruct (JsString.dropPrefix "/api/" p) as [rest|] eqn:E.
      * left. apply dropPrefix_Some in E. exact E.
      * right. split; [|reflexivity]. apply dropPrefix_None. exact E.
    + destruct (replaceTrailingSlash_cases q) as [E|[E H]].
      * left; exact E.
      * right. split; [exact H | exact E].
    + destruct (JsString.replaceTrailingSlash q); [left | right]; split;
        try reflexivity; discriminate.
  - intros (q & r & Hq & Hr & He).
    assert (Eq : match JsString.dropPrefix "/api/" p with
                 | Some rest => rest | None => p end = q).
    { destruct Hq as [Hq|[Hno ->]].
      - assert (E : JsString.dropPrefix "/api/" p = Some q)
          by (apply dropPrefix_Some; exact Hq).
        rewrite E. reflexivity.
      - assert (E : JsString.dropPrefix "/api/" p = None)
          by (apply dropPrefix_None; exact Hno).
        rewrite E. reflexivity. }
    rewrite Eq.
    assert (Er : JsString.replaceTrailingSlash q = r).
    { destruct Hr as [->|[Hno ->]].
      - apply replaceTrailingSlash_app.
      - apply replaceTrailingSlash_id; exact Hno. }
    rewrite Er.
    destruct He as [[-> ->]|[Hne ->]]; [reflexivity|].
    destruct r; [congruence | reflexivity].
Qed.

(** ** Running the gateway *)

Lemma string_app_assoc (a b c : string) : (a +:+ b) +:+ c = a +:+ (b +:+ c).
Proof.
  induction a as [|x a IH]; [reflexivity|].
  change (String x ((a +:+ b) +:+ c) = String x (a +:+ (b +:+ c))).
  rewrite IH. reflexivity.
Qed.

Lemma stringify_errorObject message :
  JSON.escape message = message ->
  JSON.stringify (errorObject message) = errorText message.
Proof.
  intros E. unfold errorObject, errorText. cbn [JSON.stringify].
  unfold JSON.quote. rewrite E.
  change (JSON.escape "error") with "error".
  rewrite !string_app_assoc. reflexivity.
Qed.

Example fixed_error_bodies :
  JSON.stringify (errorObject "Not found") = errorText "Not found"
  /\ JSON.stringify (errorObject "Internal server error")
     = errorText "Internal server error"
  /\ JSON.stringify
       (errorObject "Local handler failed and cloud fallback unavailable")
     = errorText "Local handler failed and cloud fallback unavailable".
Proof. repeat split; apply stringify_errorObject; reflexivity. Qed.

Lemma bodyOf_run req s :
  bodyOf req s = (Returned (bodyIn req s), afterBody req s).
Proof.
  unfold bodyOf, bodyIn, afterBody.
  destruct (JsString.includes _ _); [reflexivity|].
  unfold readBody. destruct (inbound s); reflexivity.
Qed.

Lemma afterBody_trace req s : trace (afterBody req s) = trace s.
Proof. unfold afterBody. destruct (JsString.includes _ _); reflexivity. Qed.

(** One run of the cloud proxy: a single fetch, whose outcome is the
    proxy's. *)
Lemma proxyToCloud_run cfg h requestUrl req s :
  let init := {| init_method := req_method req;
                 init_headers := toHeaders (req_headers req);
                 init_body := bodyIn req s |} in
  proxyToCloud cfg h requestUrl req s
  = (fetch h (targetOf cfg requestUrl) init,
     emit (Fetch (targetOf cfg requestUrl) init) (afterBody req s)).
Proof.
  unfold proxyToCloud, awaitFetch, bind, log, settle, ret, targetOf.
  rewrite bodyOf_run. simpl.
  destruct (fetch h _ _); reflexivity.
Qed.

Lemma ordinaryPath_eqb requestUrl :
  ordinaryPath requestUrl ->
  String.eqb (pathname requestUrl) "/api/service-status" = false
  /\ String.eqb (pathname requestUrl) "/api/local-status" = false.
Proof. intros [H1 H2]. split; apply String.eqb_neq; assumption. Qed.

Lemma outside_prefix_ordinary requestUrl :
  JsString.startsWith (pathname requestUrl) "/api/" = false ->
  ordinaryPath requestUrl.
Proof.
  intros H. split; intros E; rewrite E in H; vm_compute in H; discriminate.
Qed.

(** [dispatch] on an ordinary path, once the existence check is made. *)
Lemma dispatch_ordinary cfg h requestUrl req s :
  ordinaryPath requestUrl ->
  dispatch cfg h requestUrl req s
  = let endpoint := endpointFromPath (pathname requestUrl) in
    let modulePath := modulePathOf cfg h requestUrl in
    let s1 := emit (ExistsSync modulePath) s in
    if existsSync h modulePath then
      tryCatch
        (localHandler h endpoint modulePath requestUrl req)
        (fun error =>
           log (ConsoleError
                  ["[local-api] handler failed, using cloud fallback";
                   endpoint; errorMessage error]);;;
           tryCatch
             (proxyToCloud cfg h requestUrl req)
             (fun _ =>
                ret (json (errorObject
                             "Local handler failed and cloud fallback unavailable")
                       502))) s1
    else proxyToCloud cfg h requestUrl req s1.
Proof.
  intros Hord. destruct (ordinaryPath_eqb _ Hord) as [E1 E2].
  unfold dispatch. rewrite E1, E2.
  unfold bind at 1. unfold bind at 1. unfold log, ret. cbv zeta.
  fold (modulePathOf cfg h requestUrl).
  destruct (existsSync h (modulePathOf cfg h requestUrl)); reflexivity.
Qed.

(** One run of the [try] block, by what the import and the [Request]
    constructor give. *)
Lemma localHandler_run h endpoint modulePath requestUrl req s :
  let specifier :=
    pathToFileURL_href h modulePath +:+ "?v=" +:+ pretty (Date_now h) in
  let s1 := emit (ImportModule specifier) s in
  localHandler h endpoint modulePath requestUrl req s
  = match import_ h specifier with
    | Thrown e => (Thrown e, s1)
    | Returned NotCallable =>
        (Returned (json (errorObject ("Invalid handler for " +:+ endpoint)) 500),
         s1)
    | Returned (Callable handler) =>
        match new_Request h (URL_toString requestUrl) (initFor req s) with
        | Thrown e => (Thrown e, afterBody req s1)
        | Returned request =>
            (handler request, emit (Invoke request) (afterBody req s1))
        end
    end.
Proof.
  unfold localHandler, bind, log, settle, ret. cbv zeta.
  destruct (import_ h _) as [[|handler]|e]; try reflexivity.
  rewrite bodyOf_run.
  change (bodyIn req (emit (ImportModule (pathToFileURL_href h modulePath
            +:+ "?v=" +:+ pretty (Date_now h))) s)) with (bodyIn req s).
  fold (initFor req s).
  destruct (new_Request h _ _) as [request|e]; [|reflexivity].
  destruct (handler request); reflexivity.
Qed.

(** Once the body has been read the inbound stream is drained: nothing is
    left for a later [readBody]. *)
Lemma bodyIn_afterBody req s : bodyIn req (afterBody req s) = None.
Proof.
  unfold bodyIn, afterBody.
  destruct (JsString.includes _ _); reflexivity.
Qed.

Lemma bodyIn_emit req ev s : bodyIn req (emit ev s) = bodyIn req s.
Proof. reflexivity. Qed.

Lemma initFor_emit req ev s : initFor req (emit ev s) = initFor req s.
Proof. reflexivity. Qed.

Lemma afterBody_emit req ev s :
  afterBody req (emit ev s) = emit ev (afterBody req s).
Proof. unfold afterBody. destruct (JsString.includes _ _); reflexivity. Qed.

Lemma initFor_afterBody req s : initFor req (afterBody req s) = bodilessInit req.
Proof. unfold initFor, bodilessInit. rewrite bodyIn_afterBody. reflexivity. Qed.

Lemma afterBody_idem req s : afterBody req (afterBody req s) = afterBody req s.
Proof. unfold afterBody. destruct (JsString.includes _ _); reflexivity. Qed.

Lemma emit_eq ev s :
  emit ev s = {| inbound := inbound s; trace := (trace s ++ [ev])%list |}.
Proof. reflexivity. Qed.

Lemma trace_emit ev s : trace (emit ev s) = (trace s ++ [ev])%list.
Proof. reflexivity. Qed.

(** Two descriptions of the state after the same steps. *)
Ltac same_state :=
  unfold emit, afterBody, handlerFailed;
  destruct (JsString.includes _ _);
  cbn [inbound trace fst snd];
  rewrite <- ?app_assoc; reflexivity.

(** The forward of a request in state [s], in full. *)
Lemma proxyToCloud_state cfg h requestUrl req s :
  proxyToCloud cfg h requestUrl req s
  = (fetch h (targetOf cfg requestUrl) (initFor req s),
     {| inbound := inbound (afterBody req s);
        trace := (trace s
                  ++ [Fetch (targetOf cfg requestUrl) (initFor req s)])%list |}).
Proof.
  rewrite proxyToCloud_run. cbv zeta. fold (initFor req s).
  rewrite emit_eq, afterBody_trace. reflexivity.
Qed.

(** The [catch] of [dispatch], entered in state [s] with [error]. *)
Lemma fallback_state cfg h requestUrl req s error :
  (log (ConsoleError
          ["[local-api] handler failed, using cloud fallback";
           endpointFromPath (pathname requestUrl); errorMessage error]);;;
   tryCatch
     (proxyToCloud cfg h requestUrl req)
     (fun _ =>
        ret (json (errorObject
                     "Local handler failed and cloud fallback unavailable")
               502))) s
  = (match fetch h (targetOf cfg requestUrl) (initFor req s) with
     | Returned r => Returned r
     | Thrown _ =>
         Returned
           (json (errorObject
                    "Local handler failed and cloud fallback unavailable") 502)
     end,
     {| inbound := inbound (afterBody req s);
        trace := (trace s
                  ++ [handlerFailed requestUrl error;
                      Fetch (targetOf cfg requestUrl) (initFor req s)])%list |}).
Proof.
  unfold bind, log, tryCatch. rewrite proxyToCloud_state.
  rewrite initFor_emit, afterBody_emit. unfold handlerFailed.
  destruct (fetch h _ _); unfold ret; simpl; rewrite <- app_assoc; reflexivity.
Qed.

(** On an ordinary path [dispatch] always starts by asking the file system. *)
Lemma dispatch_ordinary_trace cfg h requestUrl req s :
  ordinaryPath requestUrl ->
  exists evs,
    trace (snd (dispatch cfg h requestUrl req s))
    = (trace s ++ ExistsSync (modulePathOf cfg h requestUrl) :: evs)%list.
Proof.
  intros Hord. rewrite dispatch_ordinary by exact Hord. cbv zeta.
  destruct (existsSync h _).
  - unfold tryCatch at 1. rewrite localHandler_run. cbv zeta.
    destruct (import_ h _) as [[|handler]|e].
    + eexists. simpl. rewrite <- app_assoc. reflexivity.
    + destruct (new_Request h _ _) as [request|e].
      * destruct (handler request) as [r|e].
        -- eexists. cbn [snd]. rewrite !trace_emit, afterBody_trace.
           rewrite !trace_emit. rewrite <- !app_assoc. reflexivity.
        -- rewrite fallback_state. eexists. cbn [snd trace].
           rewrite !trace_emit, afterBody_trace, !trace_emit.
           rewrite <- !app_assoc. reflexivity.
      * rewrite fallback_state. eexists. cbn [snd trace].
        rewrite afterBody_trace, !trace_emit.
        rewrite <- !app_assoc. reflexivity.
    + rewrite fallback_state. eexists. cbn [snd trace].
      rewrite !trace_emit. rewrite <- !app_assoc. reflexivity.
  - rewrite proxyToCloud_state. eexists. cbn [snd trace].
    rewrite trace_emit. rewrite <- app_assoc. reflexivity.
Qed.

Lemma dispatch_ordinary_moves cfg h requestUrl req s :
  ordinaryPath requestUrl ->
  snd (dispatch cfg h requestUrl req s) <> s.
Proof.
  intros Hord E.
  destruct (dispatch_ordinary_trace cfg h requestUrl req s Hord) as [evs Ht].
  rewrite E in Ht. apply (f_equal length) in Ht.
  rewrite length_app in Ht. simpl in Ht. lia.
Qed.

(** ** The claims on the gateway *)

(** C4. A request whose path does not start with "/api/" is answered 404 with
    the JSON body of [{ error: 'Not found' }]; the dispatcher is not run: the
    state is left as it was, whereas any run of [dispatch] on that request
    would have changed it. *)
Theorem foreign_path_rejected cfg h req s :
  JsString.startsWith (pathname (req_url req)) "/api/" = false ->
  createServerCallback cfg h req s
  = (Returned
       {| written_status := 404;
          written_headers := [("content-type", "application/json")];
          written_body :=
            list_byte_of_string (JSON.stringify (errorObject "Not found")) |},
     s)
  /\ forall s', snd (dispatch cfg h (req_url req) req s') <> s'.
Proof.
  intros Hout. split.
  - unfold createServerCallback. rewrite Hout. reflexivity.
  - intros s'. apply dispatch_ordinary_moves.
    apply outside_prefix_ordinary. exact Hout.
Qed.

Lemma foreign_path_rejected_witness :
  createServerCallback Scenario.cfg Scenario.hostThrowing Scenario.getPage
    Scenario.arrival
  = (Returned
       {| written_status := 404;
          written_headers := [("content-type", "application/json")];
          written_body :=
            list_byte_of_string (JSON.stringify (errorObject "Not found")) |},
     Scenario.arrival)
  /\ forall s',
       snd (dispatch Scenario.cfg Scenario.hostThrowing
              (req_url Scenario.getPage) Scenario.getPage s') <> s'.
Proof.
  apply (foreign_path_rejected Scenario.cfg Scenario.hostThrowing
           Scenario.getPage Scenario.arrival).
  reflexivity.
Defined.

(** C6. The cloud proxy performs one fetch, to [remoteBase] followed by the
    request's path and query string exactly as received, and its outcome is
    that fetch's outcome: the upstream response is handed back whatever its
    status. *)
Theorem proxyToCloud_transparent cfg h requestUrl req s :
  let target := remoteBase cfg +:+ pathname requestUrl +:+ search requestUrl in
  exists init s',
    proxyToCloud cfg h requestUrl req s = (fetch h target init, s')
    /\ trace s' = (trace s ++ [Fetch target init])%list
    /\ init_method init = req_method req
    /\ init_headers init = toHeaders (req_headers req)
    /\ init_body init = bodyIn req s.
Proof.
  cbv zeta. pose proof (proxyToCloud_run cfg h requestUrl req s) as Hrun.
  cbv zeta in Hrun. unfold targetOf in Hrun.
  eexists _, _. split; [exact Hrun|].
  split; [|repeat split].
  rewrite trace_emit, afterBody_trace. reflexivity.
Qed.

(** The fallback when the upstream answers [r] to whatever is sent. *)
Lemma fallback_answers cfg h requestUrl req s e r :
  (forall init, fetch h (targetOf cfg requestUrl) init = Returned r) ->
  fst ((log (ConsoleError
               ["[local-api] handler failed, using cloud fallback";
                endpointFromPath (pathname requestUrl); errorMessage e]);;;
        tryCatch
          (proxyToCloud cfg h requestUrl req)
          (fun _ =>
             ret (json (errorObject
                          "Local handler failed and cloud fallback unavailable")
                    502))) s)
  = Returned r.
Proof.
  intros Hok. unfold bind, log, tryCatch.
  rewrite proxyToCloud_run. cbv zeta. rewrite Hok. reflexivity.
Qed.

(** C2. When the handler file exists, its load or its invocation throws (or
    the request object cannot be built), and the forward that the cloud proxy
    makes from the catch fails, [dispatch] returns status 502 with the JSON
    body of [{ error: 'Local handler failed and cloud fallback unavailable' }].
    Only that one forward, with the init actually sent, has to fail. *)
Theorem dispatch_local_and_cloud_fail cfg h requestUrl req s e init e' :
  ordinaryPath requestUrl ->
  existsSync h (modulePathOf cfg h requestUrl) = true ->
  LocalFailure h (specifierOf cfg h requestUrl) requestUrl req s e init ->
  fetch h (targetOf cfg requestUrl) init = Thrown e' ->
  fst (dispatch cfg h requestUrl req s)
  = Returned
      {| status := 502;
         headers := [("content-type", "application/json")];
         body :=
           list_byte_of_string
             (JSON.stringify
                (errorObject
                   "Local handler failed and cloud fallback unavailable")) |}.
Proof.
  intros Hord Hex Hlocal Hoff.
  rewrite dispatch_ordinary by exact Hord. cbv zeta. rewrite Hex.
  unfold tryCatch at 1. rewrite localHandler_run. cbv zeta.
  fold (specifierOf cfg h requestUrl).
  destruct Hlocal as [e Himp | handler e Himp Hnew
                     | handler request e Himp Hnew Hthrow];
    rewrite Himp; rewrite ?initFor_emit; rewrite ?Hnew; rewrite ?Hthrow;
    rewrite fallback_state; cbn [fst];
    rewrite ?initFor_emit, ?afterBody_emit, ?initFor_emit, ?initFor_afterBody;
    rewrite Hoff; reflexivity.
Qed.

Lemma dispatch_local_and_cloud_fail_witness :
  fst (dispatch Scenario.cfg Cases.hostPicky
         (req_url Scenario.postWeather) Scenario.postWeather Scenario.arrival)
  = Returned
      {| status := 502;
         headers := [("content-type", "application/json")];
         body :=
           list_byte_of_string
             (JSON.stringify
                (errorObject
                   "Local handler failed and cloud fallback unavailable")) |}.
Proof.
  apply (dispatch_local_and_cloud_fail Scenario.cfg Cases.hostPicky
           (req_url Scenario.postWeather) Scenario.postWeather Scenario.arrival
           (Error "boom") (bodilessInit Scenario.postWeather)
           (TypeError "fetch failed")).
  - split; discriminate.
  - reflexivity.
  - eapply (InvocationThrows _ _ _ _ _ Scenario.throwingHandler);
      reflexivity.
  - reflexivity.
Defined.

(** C10. When no handler file exists for an ordinary "/api/" path and the
    upstream cannot be reached, the rejection leaves [dispatch] uncaught and
    the server callback answers 500 with the JSON body of
    [{ error: 'Internal server error' }], not the 502 answer of the handler
    fallback. *)
Theorem notFound_proxy_failure_is_500 cfg h req s e :
  JsString.startsWith (pathname (req_url req)) "/api/" = true ->
  ordinaryPath (req_url req) ->
  existsSync h (modulePathOf cfg h (req_url req)) = false ->
  cloudUnreachable h (targetOf cfg (req_url req)) e ->
  fst (dispatch cfg h (req_url req) req s) = Thrown e
  /\ fst (createServerCallback cfg h req s)
     = Returned
         {| written_status := 500;
            written_headers := [("content-type", "application/json")];
            written_body :=
              list_byte_of_string
                (JSON.stringify (errorObject "Internal server error")) |}
  /\ fst (createServerCallback cfg h req s)
     <> Returned
          {| written_status := 502;
             written_headers := [("content-type", "application/json")];
             written_body :=
               list_byte_of_string
                 (JSON.stringify
                    (errorObject
                       "Local handler failed and cloud fallback unavailable")) |}.
Proof.
  intros Hin Hord Hex Hoff.
  assert (Hd : fst (dispatch cfg h (req_url req) req s) = Thrown e).
  { rewrite dispatch_ordinary by exact Hord. cbv zeta. rewrite Hex.
    rewrite proxyToCloud_run. cbv zeta. rewrite Hoff. reflexivity. }
  assert (Hs : fst (createServerCallback cfg h req s)
     = Returned
         {| written_status := 500;
            written_headers := [("content-type", "application/json")];
            written_body :=
              list_byte_of_string
                (JSON.stringify (errorObject "Internal server error")) |}).
  { unfold createServerCallback. rewrite Hin. cbn [negb].
    unfold tryCatch, bind. cbv beta.
    destruct (dispatch cfg h (req_url req) req s) as [[r|e0] s1].
    - discriminate Hd.
    - reflexivity. }
  split; [exact Hd | split; [exact Hs|]].
  rewrite Hs. intros [= ].
Qed.

Lemma notFound_proxy_failure_is_500_witness :
  fst (createServerCallback Scenario.cfg Scenario.hostThrowingOffline
         Scenario.getNews Scenario.arrival)
  = Returned
      {| written_status := 500;
         written_headers := [("content-type", "application/json")];
         written_body :=
           list_byte_of_string
             (JSON.stringify (errorObject "Internal server error")) |}.
Proof.
  apply (notFound_proxy_failure_is_500 Scenario.cfg
           Scenario.hostThrowingOffline Scenario.getNews Scenario.arrival
           (TypeError "fetch failed")).
  - reflexivity.
  - split; discriminate.
  - reflexivity.
  - intros init. reflexivity.
Defined.

(** On an untouched stream the proxy forwards the client's bytes for a
    method other than GET and HEAD, and no body for GET and HEAD. *)
Lemma bodyIn_fresh req s :
  bodyIn req s
  = if JsString.includes ["GET"; "HEAD"] (req_method req) then None
    else if bool_decide (inbound s = []) then None
    else Some (originalBody s).
Proof.
  unfold bodyIn, originalBody.
  destruct (JsString.includes _ _); [reflexivity|].
  destruct (inbound s); reflexivity.
Qed.

(** After a handler has been invoked and has thrown, the fallback forward
    carries no body, whatever the client sent. *)
Lemma fallback_after_invocation cfg h requestUrl req s handler request e :
  ordinaryPath requestUrl ->
  existsSync h (modulePathOf cfg h requestUrl) = true ->
  import_ h (specifierOf cfg h requestUrl) = Returned (Callable handler) ->
  new_Request h (URL_toString requestUrl) (initFor req s) = Returned request ->
  handler request = Thrown e ->
  exists evs,
    trace (snd (dispatch cfg h requestUrl req s))
    = (evs ++ [Fetch (targetOf cfg requestUrl) (bodilessInit req)])%list.
Proof.
  intros Hord Hex Himp Hnew Hthrow.
  rewrite dispatch_ordinary by exact Hord. cbv zeta. rewrite Hex.
  unfold tryCatch at 1. rewrite localHandler_run. cbv zeta.
  fold (specifierOf cfg h requestUrl). rewrite Himp.
  rewrite initFor_emit, Hnew, Hthrow. rewrite fallback_state.
  rewrite initFor_emit, afterBody_emit, initFor_emit, initFor_afterBody.
  cbn [snd trace]. eexists.
  change (?l ++ [?a; ?b])%list with (l ++ [a] ++ [b])%list.
  rewrite app_assoc. reflexivity.
Qed.

(** C1 fails as stated: with [weather.js] present, its default export not
    callable and the cloud answering every forward, [dispatch] does not hand
    back the cloud's response and never calls the upstream. *)
Lemma invalid_handler_not_recovered :
  existsSync Scenario.hostInvalid
    (modulePathOf Scenario.cfg Scenario.hostInvalid
       (req_url Scenario.postWeather)) = true
  /\ import_ Scenario.hostInvalid
       (specifierOf Scenario.cfg Scenario.hostInvalid
          (req_url Scenario.postWeather)) = Returned NotCallable
  /\ (forall init,
        fetch Scenario.hostInvalid
          (targetOf Scenario.cfg (req_url Scenario.postWeather)) init
        = Returned Scenario.cloudResponse)
  /\ fst (dispatch Scenario.cfg Scenario.hostInvalid
            (req_url Scenario.postWeather) Scenario.postWeather
            Scenario.arrival)
     <> Returned Scenario.cloudResponse
  /\ existsb isFetch
       (trace (snd (dispatch Scenario.cfg Scenario.hostInvalid
                      (req_url Scenario.postWeather) Scenario.postWeather
                      Scenario.arrival))) = false.
Proof.
  split; [reflexivity|]. split; [reflexivity|].
  split; [intros init; reflexivity|].
  split; [|vm_compute; reflexivity].
  vm_compute. intros [= ].
Qed.

(** C1, amended. When the handler file exists and the module's default export
    is not callable, [dispatch] does not call the cloud proxy: it returns
    status 500 with the JSON body of
    [{ error: 'Invalid handler for <endpoint>' }], after the existence check
    and the import only, the inbound stream unread. *)
Theorem dispatch_invalid_handler cfg h requestUrl req s :
  ordinaryPath requestUrl ->
  existsSync h (modulePathOf cfg h requestUrl) = true ->
  import_ h (specifierOf cfg h requestUrl) = Returned NotCallable ->
  dispatch cfg h requestUrl req s
  = (Returned
       {| status := 500;
          headers := [("content-type", "application/json")];
          body :=
            list_byte_of_string
              (JSON.stringify
                 (errorObject
                    ("Invalid handler for "
                     +:+ endpointFromPath (pathname requestUrl)))) |},
     {| inbound := inbound s;
        trace := (trace s ++ [ExistsSync (modulePathOf cfg h requestUrl);
                              ImportModule (specifierOf cfg h requestUrl)])%list |}).
Proof.
  intros Hord Hex Himp.
  rewrite dispatch_ordinary by exact Hord. cbv zeta. rewrite Hex.
  unfold tryCatch at 1. rewrite localHandler_run. cbv zeta.
  fold (specifierOf cfg h requestUrl). rewrite Himp.
  unfold emit, json. simpl. rewrite <- app_assoc. reflexivity.
Qed.

Lemma dispatch_invalid_handler_witness :
  dispatch Scenario.cfg Scenario.hostInvalid (req_url Scenario.postWeather)
    Scenario.postWeather Scenario.arrival
  = (Returned
       {| status := 500;
          headers := [("content-type", "application/json")];
          body :=
            list_byte_of_string
              (JSON.stringify (errorObject "Invalid handler for weather")) |},
     {| inbound := inbound Scenario.arrival;
        trace :=
          [ExistsSync "/opt/worldmonitor/api/weather.js";
           ImportModule "file:///opt/worldmonitor/api/weather.js?v=1700000000000"] |}).
Proof.
  apply (dispatch_invalid_handler Scenario.cfg Scenario.hostInvalid
           (req_url Scenario.postWeather) Scenario.postWeather
           Scenario.arrival).
  - split; discriminate.
  - reflexivity.
  - reflexivity.
Defined.

(** A load that throws is recovered through the cloud proxy. *)
Lemma dispatch_import_throws cfg h requestUrl req s e r :
  ordinaryPath requestUrl ->
  existsSync h (modulePathOf cfg h requestUrl) = true ->
  import_ h (specifierOf cfg h requestUrl) = Thrown e ->
  (forall init, fetch h (targetOf cfg requestUrl) init = Returned r) ->
  fst (dispatch cfg h requestUrl req s) = Returned r.
Proof.
  intros Hord Hex Himp Hok.
  rewrite dispatch_ordinary by exact Hord. cbv zeta. rewrite Hex.
  unfold tryCatch at 1. rewrite localHandler_run. cbv zeta.
  fold (specifierOf cfg h requestUrl). rewrite Himp.
  apply (fallback_answers cfg h requestUrl req _ e r Hok).
Qed.

(** The same request when [weather.js] fails to load: nothing has read the
    stream before the fallback, and the client's bytes reach the upstream. *)
Example import_failure_forwards_body :
  List.filter isFetch
    (trace (snd (dispatch Scenario.cfg Scenario.hostUnloadable
                   (req_url Scenario.postWeather) Scenario.postWeather
                   Scenario.arrival)))
  = [Fetch "https://worldmonitor.app/api/weather?city=Oslo"
       {| init_method := "POST";
          init_headers := [("content-type", "text/plain")];
          init_body := Some (list_byte_of_string "temp=21") |}].
Proof. reflexivity. Qed.

(** C3 at POST /api/weather with body "temp=21", [weather.js] throwing on
    invocation and the cloud answering: the handler was given the client's
    bytes, and the forward that follows is made without a body. *)
Theorem fallback_forward_loses_body :
  originalBody Scenario.arrival = list_byte_of_string "temp=21"
  /\ exists s',
       dispatch Scenario.cfg Scenario.hostThrowing
         (req_url Scenario.postWeather) Scenario.postWeather Scenario.arrival
       = (Returned Scenario.cloudResponse, s')
       /\ List.filter isFetch (trace s')
          = [Fetch "https://worldmonitor.app/api/weather?city=Oslo"
               {| init_method := "POST";
                  init_headers := [("content-type", "text/plain")];
                  init_body := None |}].
Proof.
  split; [reflexivity|].
  eexists. split; [vm_compute; reflexivity|]. reflexivity.
Qed.

(** ** The claims on the client runtime module *)

Lemma normalizeBaseUrl_strips b : normalizeBaseUrl (b +:+ "/") = b.
Proof. apply replaceTrailingSlash_app. Qed.

Lemma normalizeBaseUrl_keeps o :
  (forall t, o <> t +:+ "/") -> normalizeBaseUrl o = o.
Proof. apply replaceTrailingSlash_id. Qed.

(** C7. Outside the desktop runtime [getApiBaseUrl] is the empty string
    whatever the environment configures; inside it, a configured (non-empty)
    override is returned with one trailing slash removed, and without an
    override the result is the fixed local default base. *)
Theorem getApiBaseUrl_cases (env : ImportMetaEnv) (g : Global) :
  (isDesktopRuntime g = false -> getApiBaseUrl env g = "")
  /\ (isDesktopRuntime g = true ->
      forall o, env !! "VITE_TAURI_API_BASE_URL" = Some o -> o <> "" ->
        (forall b, o = b +:+ "/" -> getApiBaseUrl env g = b)
        /\ ((forall t, o <> t +:+ "/") -> getApiBaseUrl env g = o))
  /\ (isDesktopRuntime g = true ->
      env !! "VITE_TAURI_API_BASE_URL" = None
      \/ env !! "VITE_TAURI_API_BASE_URL" = Some "" ->
      getApiBaseUrl env g = "http://127.0.0.1:46123").
Proof.
  unfold getApiBaseUrl. split; [|split].
  - intros ->. reflexivity.
  - intros -> o -> Hne. cbn [negb].
    apply truthy_true in Hne.
    rewrite Hne. split.
    + intros b ->. apply normalizeBaseUrl_strips.
    + apply normalizeBaseUrl_keeps.
  - intros -> [-> | ->]; reflexivity.
Qed.

Lemma getApiBaseUrl_cases_witness :
  getApiBaseUrl Scenario.override Scenario.browser = ""
  /\ getApiBaseUrl Scenario.override Scenario.desktop = "http://localhost:9000"
  /\ getApiBaseUrl ∅ Scenario.desktop = "http://127.0.0.1:46123".
Proof.
  split; [|split].
  - apply (proj1 (getApiBaseUrl_cases Scenario.override Scenario.browser)).
    reflexivity.
  - apply (proj1 (proj2 (getApiBaseUrl_cases Scenario.override Scenario.desktop))
             eq_refl "http://localhost:9000/").
    + reflexivity.
    + discriminate.
    + reflexivity.
  - apply (proj2 (proj2 (getApiBaseUrl_cases ∅ Scenario.desktop))).
    + reflexivity.
    + left. reflexivity.
Defined.

(** C8. [toRuntimeUrl] returns a path that does not start with "/" as it is;
    a path that starts with "/" is returned as it is outside the desktop
    runtime and prefixed with [getApiBaseUrl()] inside it, so that "/api/x"
    with the local base "http://127.0.0.1:46123" gives
    "http://127.0.0.1:46123/api/x". *)
Theorem toRuntimeUrl_cases (env : ImportMetaEnv) (g : Global) (path : string) :
  (JsString.startsWith path "/" = false -> toRuntimeUrl env g path = path)
  /\ (JsString.startsWith path "/" = true -> isDesktopRuntime g = true ->
      toRuntimeUrl env g path = getApiBaseUrl env g +:+ path)
  /\ (JsString.startsWith path "/" = true -> isDesktopRuntime g = false ->
      toRuntimeUrl env g path = path)
  /\ (isDesktopRuntime g = true ->
      getApiBaseUrl env g = "http://127.0.0.1:46123" ->
      toRuntimeUrl env g "/api/x" = "http://127.0.0.1:46123/api/x").
Proof.
  unfold toRuntimeUrl. split; [|split; [|split]].
  - intros ->. reflexivity.
  - intros -> _. cbn [negb].
    destruct (getApiBaseUrl env g); reflexivity.
  - intros -> Hd. cbn [negb]. unfold getApiBaseUrl. rewrite Hd. reflexivity.
  - intros _ ->. reflexivity.
Qed.

Lemma toRuntimeUrl_cases_witness :
  toRuntimeUrl ∅ Scenario.desktop "api/x" = "api/x"
  /\ toRuntimeUrl Scenario.override Scenario.desktop "/api/x"
     = "http://localhost:9000/api/x"
  /\ toRuntimeUrl Scenario.override Scenario.browser "/api/x" = "/api/x"
  /\ toRuntimeUrl ∅ Scenario.desktop "/api/x" = "http://127.0.0.1:46123/api/x".
Proof.
  split; [|split; [|split]].
  - apply (proj1 (toRuntimeUrl_cases ∅ Scenario.desktop "api/x")).
    reflexivity.
  - apply (proj1 (proj2 (toRuntimeUrl_cases Scenario.override Scenario.desktop
                           "/api/x"))); reflexivity.
  - apply (proj1 (proj2 (proj2 (toRuntimeUrl_cases Scenario.override
                                  Scenario.browser "/api/x")))); reflexivity.
  - apply (proj2 (proj2 (proj2 (toRuntimeUrl_cases ∅ Scenario.desktop
                                  "/api/x")))); reflexivity.
Defined.

(** The patched function: other URLs go to the previous function as they
    are; an "/api/" URL is tried on the local base, then on the remote one. *)
Lemma callFetch_patched network nativeFetch localBase remoteBase url :
  callFetch network (PatchedFetch nativeFetch localBase remoteBase) url
  = if JsString.startsWith url "/api/" then
      match callFetch network nativeFetch (localBase +:+ url) with
      | Returned response => Returned response
      | Thrown _ => callFetch network nativeFetch (remoteBase +:+ url)
      end
    else callFetch network nativeFetch url.
Proof. simpl. destruct (JsString.startsWith url "/api/"); reflexivity. Qed.

(** The context left by a call that installs the patch. *)
Lemma install_patched_state env (window : gmap string JsValue) f :
  let g1 := Some (<["__wmFetchPatched" := JsBoolean true]>
                    (<["fetch" := JsFetch f]> window)) in
  installRuntimeFetchPatch env g1 = (Returned tt, g1).
Proof.
  cbv zeta. unfold installRuntimeFetchPatch, getProperty.
  rewrite lookup_insert_eq. cbn [default truthy].
  rewrite orb_true_r. reflexivity.
Qed.

(** A call either leaves the context as it is, or installs the patch once
    around the function found in [window.fetch]. *)
Lemma install_cases env g :
  snd (installRuntimeFetchPatch env g) = g
  \/ exists window f,
       g = Some window /\ window !! "fetch" = Some (JsFetch f)
       /\ installRuntimeFetchPatch env g
          = (Returned tt,
             Some (<["__wmFetchPatched" := JsBoolean true]>
                     (<["fetch" :=
                          JsFetch (PatchedFetch f (getApiBaseUrl env g)
                                     (getRemoteApiBaseUrl env))]> window))).
Proof.
  unfold installRuntimeFetchPatch.
  destruct g as [window|]; [|left; reflexivity].
  destruct (negb _ || _); [left; reflexivity|].
  destruct (window !! "fetch") as [[| | | | | |f]|] eqn:Ef;
    try (left; reflexivity).
  right. exists window, f. auto.
Qed.

Lemma install_twice env g :
  let g1 := snd (installRuntimeFetchPatch env g) in
  installRuntimeFetchPatch env g1 = (fst (installRuntimeFetchPatch env g), g1).
Proof.
  cbv zeta. destruct (install_cases env g) as [E|(window & f & -> & Ef & E)].
  - rewrite E. destruct (installRuntimeFetchPatch env g) as [o g']; simpl in *.
    subst g'. reflexivity.
  - rewrite E. cbn [fst snd]. apply install_patched_state.
Qed.

Lemma installTimes_succ env g n :
  installTimes (S n) env g = snd (installRuntimeFetchPatch env g).
Proof.
  revert g. induction n as [|n IH]; intros g; [reflexivity|].
  change (installTimes (S (S n)) env g)
    with (installTimes (S n) env (snd (installRuntimeFetchPatch env g))).
  rewrite IH. rewrite install_twice. reflexivity.
Qed.

Lemma install_depth env g :
  fetchDepth (snd (installRuntimeFetchPatch env g)) <= S (fetchDepth g).
Proof.
  destruct (install_cases env g) as [E|(window & f & -> & Ef & E)].
  - rewrite E. lia.
  - rewrite E. cbn [snd]. unfold fetchDepth. rewrite Ef.
    rewrite lookup_insert_ne by discriminate.
    rewrite lookup_insert_eq. simpl. lia.
Qed.

(** C9. [installRuntimeFetchPatch] is idempotent. Outside the desktop runtime
    a call changes nothing; when the marker [__wmFetchPatched] is set a call
    changes nothing; a second call leaves the context of the first and ends
    as the first did; and over any number of calls [window.fetch] is wrapped
    at most once. *)
Theorem installRuntimeFetchPatch_idempotent (env : ImportMetaEnv) (g : Global) :
  (isDesktopRuntime g = false ->
   installRuntimeFetchPatch env g = (Returned tt, g))
  /\ (forall window, g = Some window ->
      truthy (getProperty window "__wmFetchPatched") = true ->
      installRuntimeFetchPatch env g = (Returned tt, g))
  /\ (let g1 := snd (installRuntimeFetchPatch env g) in
      installRuntimeFetchPatch env g1
      = (fst (installRuntimeFetchPatch env g), g1))
  /\ (forall n,
        installTimes (S n) env g = snd (installRuntimeFetchPatch env g)
        /\ fetchDepth (installTimes n env g) <= S (fetchDepth g)).
Proof.
  split; [|split; [|split]].
  - intros Hd. unfold installRuntimeFetchPatch.
    destruct g as [window|]; [|reflexivity]. rewrite Hd. reflexivity.
  - intros window -> Hm. unfold installRuntimeFetchPatch.
    rewrite Hm, orb_true_r. reflexivity.
  - apply install_twice.
  - intros n. split; [apply installTimes_succ|].
    destruct n as [|n]; [simpl; lia|].
    rewrite installTimes_succ. apply install_depth.
Qed.

Lemma installRuntimeFetchPatch_idempotent_witness :
  installRuntimeFetchPatch ∅ Scenario.browser = (Returned tt, Scenario.browser)
  /\ fetchDepth (installTimes 3 ∅ Scenario.desktop) = 1
  /\ installTimes 3 ∅ Scenario.desktop
     = snd (installRuntimeFetchPatch ∅ Scenario.desktop).
Proof.
  split; [|split].
  - apply (proj1 (installRuntimeFetchPatch_idempotent ∅ Scenario.browser)).
    reflexivity.
  - vm_compute. reflexivity.
  - apply (proj2 (proj2 (proj2
             (installRuntimeFetchPatch_idempotent ∅ Scenario.desktop))) 2).
Defined.

(** * Further properties of the gateway *)

(** ** Endpoint names and the remote base *)

Lemma replaceLeading_app p rest : JsString.replaceLeading p (p +:+ rest) = rest.
Proof.
  unfold JsString.replaceLeading.
  assert (E : JsString.dropPrefix p (p +:+ rest) = Some rest)
    by (apply dropPrefix_Some; reflexivity).
  rewrite E. reflexivity.
Qed.

Lemma orElse_truthy s d : s <> "" -> JsString.orElse s d = s.
Proof. intros H. unfold JsString.orElse. destruct s; [congruence | reflexivity]. Qed.

Lemma orElse_nonempty s d : d <> "" -> JsString.orElse s d <> "".
Proof. intros H. unfold JsString.orElse. destruct s; simpl; congruence. Qed.

(** X1. A non-empty name without a final slash is recovered from its path,
    with or without one trailing slash: "/api/<name>" and "/api/<name>/"
    select the same handler. *)
Theorem endpointFromPath_trailing_slash (name : string) :
  name <> "" ->
  (forall t, name <> t +:+ "/") ->
  endpointFromPath ("/api/" +:+ name) = name
  /\ endpointFromPath ("/api/" +:+ (name +:+ "/")) = name.
Proof.
  intros Hne Hns. unfold endpointFromPath. rewrite !replaceLeading_app.
  rewrite replaceTrailingSlash_app, (replaceTrailingSlash_id name Hns).
  split; apply orElse_truthy; exact Hne.
Qed.

Lemma endpointFromPath_trailing_slash_witness :
  endpointFromPath ("/api/" +:+ "weather") = "weather"
  /\ endpointFromPath ("/api/" +:+ ("weather" +:+ "/")) = "weather".
Proof.
  apply (endpointFromPath_trailing_slash "weather").
  - discriminate.
  - intros t E. pose proof (f_equal JsString.replaceTrailingSlash E) as E'.
    rewrite replaceTrailingSlash_app in E'. subst t.
    vm_compute in E. discriminate E.
Defined.

(** The endpoint name is never empty, whatever the path: the handler file
    looked up always has a base name. *)
Lemma endpointFromPath_never_empty (pathname : string) :
  endpointFromPath pathname <> "".
Proof. unfold endpointFromPath. apply orElse_nonempty. discriminate. Qed.

(** X2. The remote base is "https://worldmonitor.app" when
    LOCAL_API_REMOTE_BASE is unset or empty; a configured base is taken with
    or without one trailing slash to the same value, so the upstream URL of a
    request gets no doubled slash. *)
Theorem remoteBaseOfEnv_cases :
  remoteBaseOfEnv None = "https://worldmonitor.app"
  /\ remoteBaseOfEnv (Some "") = "https://worldmonitor.app"
  /\ forall b, b <> "" -> (forall t, b <> t +:+ "/") ->
       remoteBaseOfEnv (Some b) = b
       /\ remoteBaseOfEnv (Some (b +:+ "/")) = b.
Proof.
  split; [reflexivity|]. split; [reflexivity|].
  intros b Hne Hns. unfold remoteBaseOfEnv. cbn [default].
  rewrite (orElse_truthy b) by exact Hne.
  rewrite (orElse_truthy (b +:+ "/")) by (destruct b; discriminate).
  split; [apply replaceTrailingSlash_id; exact Hns
         | apply replaceTrailingSlash_app].
Qed.

Lemma remoteBaseOfEnv_cases_witness :
  remoteBaseOfEnv (Some "https://staging.example") = "https://staging.example"
  /\ remoteBaseOfEnv (Some ("https://staging.example" +:+ "/"))
     = "https://staging.example".
Proof.
  apply (proj2 (proj2 remoteBaseOfEnv_cases) "https://staging.example").
  - discriminate.
  - intros t E. pose proof (f_equal JsString.replaceTrailingSlash E) as E'.
    rewrite replaceTrailingSlash_app in E'. subst t.
    vm_compute in E. discriminate E.
Defined.

(** ** Header conversion *)





(** ** Every path through [dispatch] *)

(** The server callback after [dispatch] has returned, and after it has
    thrown. *)
Lemma callback_relays cfg h req s r s' :
  JsString.startsWith (pathname (req_url req)) "/api/" = true ->
  dispatch cfg h (req_url req) req s = (Returned r, s') ->
  createServerCallback cfg h req s
  = (Returned {| written_status := status r;
                 written_headers := fromEntries (headers r);
                 written_body := body r |}, s').
Proof.
  intros Hin Hd. unfold createServerCallback. rewrite Hin. cbn [negb].
  unfold tryCatch, bind. cbv beta. rewrite Hd. reflexivity.
Qed.

Lemma callback_catches cfg h req s e s' :
  JsString.startsWith (pathname (req_url req)) "/api/" = true ->
  dispatch cfg h (req_url req) req s = (Thrown e, s') ->
  createServerCallback cfg h req s
  = (Returned {| written_status := 500;
                 written_headers := [("content-type", "application/json")];
                 written_body :=
                   list_byte_of_string
                     (JSON.stringify (errorObject "Internal server error")) |},
     emit (ConsoleError ["[local-api] fatal"; errorMessage e]) s').
Proof.
  intros Hin Hd. unfold createServerCallback. rewrite Hin. cbn [negb].
  unfold tryCatch, bind. cbv beta. rewrite Hd. reflexivity.
Qed.

(** X4. The two introspection paths are answered by the gateway itself:
    status 200 with a JSON content type, for every host, without any check of
    the file system, import, upstream call or read of the inbound stream;
    the server callback writes that answer. *)
Theorem introspection_is_local cfg h req s :
  pathname (req_url req) = "/api/service-status"
  \/ pathname (req_url req) = "/api/local-status" ->
  exists r,
    dispatch cfg h (req_url req) req s = (Returned r, s)
    /\ status r = 200%Z
    /\ headers r = [("content-type", "application/json")]
    /\ createServerCallback cfg h req s
       = (Returned {| written_status := 200;
                      written_headers := [("content-type", "application/json")];
                      written_body := body r |}, s).
Proof.
  intros HE.
  assert (Hin : JsString.startsWith (pathname (req_url req)) "/api/" = true)
    by (destruct HE as [E|E]; rewrite E; reflexivity).
  assert (Hd : exists data,
             dispatch cfg h (req_url req) req s = (Returned (json data 200), s)).
  { destruct HE as [E|E]; unfold dispatch; rewrite E; eexists; reflexivity. }
  destruct Hd as [data Hd]. exists (json data 200).
  split; [exact Hd|]. split; [reflexivity|]. split; [reflexivity|].
  rewrite (callback_relays cfg h req s _ _ Hin Hd). reflexivity.
Qed.

Lemma introspection_is_local_witness :
  exists r,
    dispatch Scenario.cfg Scenario.hostThrowingOffline
      (req_url Cases.getServiceStatus) Cases.getServiceStatus Scenario.arrival
    = (Returned r, Scenario.arrival)
    /\ status r = 200%Z
    /\ headers r = [("content-type", "application/json")]
    /\ createServerCallback Scenario.cfg Scenario.hostThrowingOffline
         Cases.getServiceStatus Scenario.arrival
       = (Returned {| written_status := 200;
                      written_headers := [("content-type", "application/json")];
                      written_body := body r |}, Scenario.arrival).
Proof.
  apply (introspection_is_local Scenario.cfg Scenario.hostThrowingOffline
           Cases.getServiceStatus Scenario.arrival).
  left. reflexivity.
Defined.

(** X5. With no handler file, [dispatch] is the cloud proxy: after the
    existence check it makes one forward with the request's method and
    headers, and its outcome is that forward's. The stream being unread, a
    method other than GET and HEAD carries the client's bytes; GET and HEAD
    carry no body and leave the stream unread. *)
Theorem dispatch_not_found_relays cfg h requestUrl req s :
  ordinaryPath requestUrl ->
  existsSync h (modulePathOf cfg h requestUrl) = false ->
  dispatch cfg h requestUrl req s
  = (fetch h (targetOf cfg requestUrl) (initFor req s),
     {| inbound := inbound (afterBody req s);
        trace := (trace s
                  ++ [ExistsSync (modulePathOf cfg h requestUrl);
                      Fetch (targetOf cfg requestUrl) (initFor req s)])%list |})
  /\ (JsString.includes ["GET"; "HEAD"] (req_method req) = false ->
      inbound s <> [] ->
      init_body (initFor req s) = Some (originalBody s))
  /\ (JsString.includes ["GET"; "HEAD"] (req_method req) = true ->
      init_body (initFor req s) = None /\ inbound (afterBody req s) = inbound s).
Proof.
  intros Hord Hex. split; [|split].
  - rewrite dispatch_ordinary by exact Hord. cbv zeta. rewrite Hex.
    rewrite proxyToCloud_state, initFor_emit, afterBody_emit. simpl.
    rewrite <- app_assoc. reflexivity.
  - intros Hm Hne. simpl. rewrite bodyIn_fresh, Hm.
    rewrite bool_decide_eq_false_2 by exact Hne. reflexivity.
  - intros Hm. simpl. unfold bodyIn, afterBody. rewrite Hm. split; reflexivity.
Qed.

Lemma dispatch_not_found_relays_witness :
  fst (dispatch Scenario.cfg Scenario.hostThrowing (req_url Cases.postNews)
         Cases.postNews Scenario.arrival)
  = Returned Scenario.cloudResponse
  /\ init_body (initFor Cases.postNews Scenario.arrival)
     = Some (list_byte_of_string "temp=21").
Proof.
  destruct (dispatch_not_found_relays Scenario.cfg Scenario.hostThrowing
              (req_url Cases.postNews) Cases.postNews Scenario.arrival)
    as (Hrun & Hbody & _).
  - split; discriminate.
  - reflexivity.
  - split.
    + rewrite Hrun. reflexivity.
    + apply Hbody; [reflexivity | discriminate].
Defined.

(** X6. When the handler file exists and loads, the request object is built
    and the handler answers, [dispatch] returns the handler's response as it
    is and never calls the upstream, reachable or not. The request object is
    built from the full request URL, the method, the converted headers and
    the body read from the stream, and the handler is invoked once, on it. *)
Theorem dispatch_handler_answers cfg h requestUrl req s handler request r :
  ordinaryPath requestUrl ->
  existsSync h (modulePathOf cfg h requestUrl) = true ->
  import_ h (specifierOf cfg h requestUrl) = Returned (Callable handler) ->
  new_Request h (URL_toString requestUrl) (initFor req s) = Returned request ->
  handler request = Returned r ->
  dispatch cfg h requestUrl req s
  = (Returned r,
     {| inbound := inbound (afterBody req s);
        trace := (trace s
                  ++ [ExistsSync (modulePathOf cfg h requestUrl);
                      ImportModule (specifierOf cfg h requestUrl);
                      Invoke request])%list |}).
Proof.
  intros Hord Hex Himp Hnew Hans.
  rewrite dispatch_ordinary by exact Hord. cbv zeta. rewrite Hex.
  unfold tryCatch at 1. rewrite localHandler_run. cbv zeta.
  fold (specifierOf cfg h requestUrl). rewrite Himp.
  rewrite initFor_emit, Hnew, Hans. f_equal. same_state.
Qed.

Lemma dispatch_handler_answers_witness :
  fst (dispatch Scenario.cfg Cases.hostWorkingOffline
         (req_url Scenario.postWeather) Scenario.postWeather Scenario.arrival)
  = Returned Cases.handlerResponse.
Proof.
  rewrite (dispatch_handler_answers Scenario.cfg Cases.hostWorkingOffline
             (req_url Scenario.postWeather) Scenario.postWeather
             Scenario.arrival Cases.workingHandler
             {| request_url := URL_toString (req_url Scenario.postWeather);
                request_init := initFor Scenario.postWeather Scenario.arrival |}
             Cases.handlerResponse).
  - reflexivity.
  - split; discriminate.
  - reflexivity.
  - reflexivity.
  - reflexivity.
  - reflexivity.
Defined.

(** The run of [dispatch] when the handler is invoked and throws. *)
Lemma run_invocation_throws cfg h requestUrl req s handler request e :
  ordinaryPath requestUrl ->
  existsSync h (modulePathOf cfg h requestUrl) = true ->
  import_ h (specifierOf cfg h requestUrl) = Returned (Callable handler) ->
  new_Request h (URL_toString requestUrl) (initFor req s) = Returned request ->
  handler request = Thrown e ->
  dispatch cfg h requestUrl req s
  = (match fetch h (targetOf cfg requestUrl) (bodilessInit req) with
     | Returned r => Returned r
     | Thrown _ =>
         Returned
           (json (errorObject
                    "Local handler failed and cloud fallback unavailable")
              502)
     end,
     {| inbound := inbound (afterBody req s);
        trace := (trace s
                  ++ [ExistsSync (modulePathOf cfg h requestUrl);
                      ImportModule (specifierOf cfg h requestUrl);
                      Invoke request;
                      handlerFailed requestUrl e;
                      Fetch (targetOf cfg requestUrl) (bodilessInit req)])%list |}).
Proof.
  intros Hord Hex Himp Hnew Hthrow.
  rewrite dispatch_ordinary by exact Hord. cbv zeta. rewrite Hex.
  unfold tryCatch at 1. rewrite localHandler_run. cbv zeta.
  fold (specifierOf cfg h requestUrl). rewrite Himp.
  rewrite initFor_emit, Hnew, Hthrow. rewrite fallback_state.
  rewrite initFor_emit, afterBody_emit, initFor_emit, initFor_afterBody.
  f_equal. same_state.
Qed.

(** X7. When the request object is built and the handler throws on
    invocation, [dispatch] writes one diagnostic naming the endpoint and the
    handler's error, then makes one forward to the upstream with the
    request's method and headers; a response of the upstream is returned as
    it is, whatever its status. *)
Theorem dispatch_invocation_fallback cfg h requestUrl req s handler request e :
  ordinaryPath requestUrl ->
  existsSync h (modulePathOf cfg h requestUrl) = true ->
  import_ h (specifierOf cfg h requestUrl) = Returned (Callable handler) ->
  new_Request h (URL_toString requestUrl) (initFor req s) = Returned request ->
  handler request = Thrown e ->
  exists init,
    init_method init = req_method req
    /\ init_headers init = toHeaders (req_headers req)
    /\ trace (snd (dispatch cfg h requestUrl req s))
       = (trace s
          ++ [ExistsSync (modulePathOf cfg h requestUrl);
              ImportModule (specifierOf cfg h requestUrl);
              Invoke request;
              handlerFailed requestUrl e;
              Fetch (targetOf cfg requestUrl) init])%list
    /\ forall r, fetch h (targetOf cfg requestUrl) init = Returned r ->
         fst (dispatch cfg h requestUrl req s) = Returned r.
Proof.
  intros Hord Hex Himp Hnew Hthrow.
  pose proof (run_invocation_throws cfg h requestUrl req s handler request e
                Hord Hex Himp Hnew Hthrow) as Hrun.
  exists (bodilessInit req).
  rewrite Hrun. cbn [fst snd trace].
  split; [reflexivity|]. split; [reflexivity|]. split; [reflexivity|].
  intros r Hr. rewrite Hr. reflexivity.
Qed.

Lemma dispatch_invocation_fallback_witness :
  exists init,
    init_method init = "POST"
    /\ init_headers init = toHeaders (req_headers Scenario.postWeather)
    /\ trace (snd (dispatch Scenario.cfg Scenario.hostThrowing
                     (req_url Scenario.postWeather) Scenario.postWeather
                     Scenario.arrival))
       = (trace Scenario.arrival
          ++ [ExistsSync (modulePathOf Scenario.cfg Scenario.hostThrowing
                            (req_url Scenario.postWeather));
              ImportModule (specifierOf Scenario.cfg Scenario.hostThrowing
                              (req_url Scenario.postWeather));
              Invoke
                {| request_url := URL_toString (req_url Scenario.postWeather);
                   request_init :=
                     initFor Scenario.postWeather Scenario.arrival |};
              handlerFailed (req_url Scenario.postWeather) (Error "boom");
              Fetch (targetOf Scenario.cfg (req_url Scenario.postWeather))
                init])%list
    /\ forall r,
         fetch Scenario.hostThrowing
           (targetOf Scenario.cfg (req_url Scenario.postWeather)) init
         = Returned r ->
         fst (dispatch Scenario.cfg Scenario.hostThrowing
                (req_url Scenario.postWeather) Scenario.postWeather
                Scenario.arrival) = Returned r.
Proof.
  apply (dispatch_invocation_fallback Scenario.cfg Scenario.hostThrowing
           (req_url Scenario.postWeather) Scenario.postWeather
           Scenario.arrival Scenario.throwingHandler
           {| request_url := URL_toString (req_url Scenario.postWeather);
              request_init := initFor Scenario.postWeather Scenario.arrival |}
           (Error "boom")).
  - split; discriminate.
  - reflexivity.
  - reflexivity.
  - reflexivity.
  - reflexivity.
Defined.

(** X8. When the import of the handler file throws, nothing has read the
    inbound stream: [dispatch] writes one diagnostic and forwards the request
    with its method, headers and the client's body; the outcome is the
    upstream's response, or the fixed 502 answer when the forward fails. *)
Theorem dispatch_load_fallback cfg h requestUrl req s e :
  ordinaryPath requestUrl ->
  existsSync h (modulePathOf cfg h requestUrl) = true ->
  import_ h (specifierOf cfg h requestUrl) = Thrown e ->
  dispatch cfg h requestUrl req s
  = (match fetch h (targetOf cfg requestUrl) (initFor req s) with
     | Returned r => Returned r
     | Thrown _ =>
         Returned
           (json (errorObject
                    "Local handler failed and cloud fallback unavailable") 502)
     end,
     {| inbound := inbound (afterBody req s);
        trace := (trace s
                  ++ [ExistsSync (modulePathOf cfg h requestUrl);
                      ImportModule (specifierOf cfg h requestUrl);
                      handlerFailed requestUrl e;
                      Fetch (targetOf cfg requestUrl) (initFor req s)])%list |}).
Proof.
  intros Hord Hex Himp.
  rewrite dispatch_ordinary by exact Hord. cbv zeta. rewrite Hex.
  unfold tryCatch at 1. rewrite localHandler_run. cbv zeta.
  fold (specifierOf cfg h requestUrl). rewrite Himp.
  rewrite fallback_state. rewrite !initFor_emit. f_equal. same_state.
Qed.

Lemma dispatch_load_fallback_witness :
  fst (dispatch Scenario.cfg Scenario.hostUnloadable
         (req_url Scenario.postWeather) Scenario.postWeather Scenario.arrival)
  = Returned Scenario.cloudResponse.
Proof.
  rewrite (dispatch_load_fallback Scenario.cfg Scenario.hostUnloadable
             (req_url Scenario.postWeather) Scenario.postWeather
             Scenario.arrival (Error "SyntaxError")).
  - reflexivity.
  - split; discriminate.
  - reflexivity.
  - reflexivity.
Defined.

(** X9. When the request carries no body (GET, HEAD, or an empty inbound
    stream), the request object is built and the handler throws, the fallback
    forwards exactly what a direct forward of the request would have sent,
    and [dispatch] returns the upstream's response or, when the forward
    fails, the fixed 502 answer. *)
Theorem dispatch_bodiless_fallback cfg h requestUrl req s handler request e :
  ordinaryPath requestUrl ->
  existsSync h (modulePathOf cfg h requestUrl) = true ->
  import_ h (specifierOf cfg h requestUrl) = Returned (Callable handler) ->
  new_Request h (URL_toString requestUrl) (initFor req s) = Returned request ->
  handler request = Thrown e ->
  JsString.includes ["GET"; "HEAD"] (req_method req) = true
  \/ inbound s = [] ->
  dispatch cfg h requestUrl req s
  = (match fetch h (targetOf cfg requestUrl) (initFor req s) with
     | Returned r => Returned r
     | Thrown _ =>
         Returned
           (json (errorObject
                    "Local handler failed and cloud fallback unavailable")
              502)
     end,
     {| inbound := inbound s;
        trace := (trace s
                  ++ [ExistsSync (modulePathOf cfg h requestUrl);
                      ImportModule (specifierOf cfg h requestUrl);
                      Invoke request;
                      handlerFailed requestUrl e;
                      Fetch (targetOf cfg requestUrl) (initFor req s)])%list |}).
Proof.
  intros Hord Hex Himp Hnew Hthrow Hnobody.
  rewrite (run_invocation_throws cfg h requestUrl req s handler request e
             Hord Hex Himp Hnew Hthrow).
  assert (Ei : initFor req s = bodilessInit req).
  { unfold initFor, bodilessInit, bodyIn. destruct Hnobody as [-> | ->];
      [reflexivity | destruct (JsString.includes _ _); reflexivity]. }
  assert (Es : inbound (afterBody req s) = inbound s).
  { unfold afterBody. destruct Hnobody as [-> | E];
      [reflexivity | destruct (JsString.includes _ _); [reflexivity|]].
    rewrite E. reflexivity. }
  rewrite Ei, Es. reflexivity.
Qed.

Lemma dispatch_bodiless_fallback_witness :
  fst (dispatch Scenario.cfg Scenario.hostThrowing (req_url Cases.getWeather)
         Cases.getWeather Scenario.arrival)
  = Returned Scenario.cloudResponse.
Proof.
  rewrite (dispatch_bodiless_fallback Scenario.cfg Scenario.hostThrowing
             (req_url Cases.getWeather) Cases.getWeather Scenario.arrival
             Scenario.throwingHandler
             {| request_url := URL_toString (req_url Cases.getWeather);
                request_init := initFor Cases.getWeather Scenario.arrival |}
             (Error "boom")).
  - reflexivity.
  - split; discriminate.
  - reflexivity.
  - reflexivity.
  - reflexivity.
  - reflexivity.
  - left. reflexivity.
Defined.

(** X22. When the [Request] constructor refuses the request (a TRACE method,
    for one), the handler is never invoked: [dispatch] writes one diagnostic
    carrying the constructor's error and makes one forward, without a body
    since the stream has been read; it returns the upstream's response or,
    when the forward fails, the fixed 502 answer. *)
Theorem dispatch_request_refused cfg h requestUrl req s handler e :
  ordinaryPath requestUrl ->
  existsSync h (modulePathOf cfg h requestUrl) = true ->
  import_ h (specifierOf cfg h requestUrl) = Returned (Callable handler) ->
  new_Request h (URL_toString requestUrl) (initFor req s) = Thrown e ->
  dispatch cfg h requestUrl req s
  = (match fetch h (targetOf cfg requestUrl) (bodilessInit req) with
     | Returned r => Returned r
     | Thrown _ =>
         Returned
           (json (errorObject
                    "Local handler failed and cloud fallback unavailable")
              502)
     end,
     {| inbound := inbound (afterBody req s);
        trace := (trace s
                  ++ [ExistsSync (modulePathOf cfg h requestUrl);
                      ImportModule (specifierOf cfg h requestUrl);
                      handlerFailed requestUrl e;
                      Fetch (targetOf cfg requestUrl) (bodilessInit req)])%list |}).
Proof.
  intros Hord Hex Himp Hnew.
  rewrite dispatch_ordinary by exact Hord. cbv zeta. rewrite Hex.
  unfold tryCatch at 1. rewrite localHandler_run. cbv zeta.
  fold (specifierOf cfg h requestUrl). rewrite Himp.
  rewrite initFor_emit, Hnew. rewrite fallback_state.
  rewrite afterBody_emit, initFor_emit, initFor_afterBody.
  f_equal. same_state.
Qed.

Lemma dispatch_request_refused_witness :
  dispatch Scenario.cfg Cases.hostWorkingOffline (req_url Cases.traceWeather)
    Cases.traceWeather Scenario.arrival
  = (Returned
       (json (errorObject
                "Local handler failed and cloud fallback unavailable") 502),
     {| inbound := [];
        trace :=
          [ExistsSync "/opt/worldmonitor/api/weather.js";
           ImportModule "file:///opt/worldmonitor/api/weather.js?v=1700000000000";
           handlerFailed (req_url Cases.traceWeather)
             (TypeError "HTTP method is unsupported");
           Fetch "https://worldmonitor.app/api/weather"
             (bodilessInit Cases.traceWeather)] |}).
Proof.
  rewrite (dispatch_request_refused Scenario.cfg Cases.hostWorkingOffline
             (req_url Cases.traceWeather) Cases.traceWeather Scenario.arrival
             Cases.workingHandler (TypeError "HTTP method is unsupported")).
  - reflexivity.
  - split; discriminate.
  - reflexivity.
  - reflexivity.
  - reflexivity.
Defined.

(** All the ways through [dispatch] on an ordinary path, for a goal of the
    form [dispatch ... = (o, s') -> _]. *)
Ltac run_dispatch Hord :=
  rewrite dispatch_ordinary by exact Hord; cbv zeta;
  let Hex := fresh "Hex" in
  let Himp := fresh "Himp" in
  let Hnew := fresh "Hnew" in
  let Hh := fresh "Hh" in
  destruct (existsSync _ _) eqn:Hex;
  [ unfold tryCatch at 1; rewrite localHandler_run; cbv zeta;
    destruct (import_ _ _) as [[|?handler]|?e] eqn:Himp;
    [ | destruct (new_Request _ _ _) as [?request|?e] eqn:Hnew;
        [ destruct (handler _) as [?r|?e] eqn:Hh; [ | rewrite fallback_state ]
        | rewrite fallback_state ]
      | rewrite fallback_state ]
  | rewrite proxyToCloud_state ].

Lemma ordinaryPath_dec requestUrl :
  ordinaryPath requestUrl
  \/ pathname requestUrl = "/api/service-status"
  \/ pathname requestUrl = "/api/local-status".
Proof.
  unfold ordinaryPath.
  destruct (String.eqb_spec (pathname requestUrl) "/api/service-status");
    [right; left; assumption|].
  destruct (String.eqb_spec (pathname requestUrl) "/api/local-status");
    [right; right; assumption|].
  left. split; assumption.
Qed.

Lemma dispatch_introspection cfg h requestUrl req s :
  pathname requestUrl = "/api/service-status"
  \/ pathname requestUrl = "/api/local-status" ->
  exists r, dispatch cfg h requestUrl req s = (Returned r, s).
Proof.
  intros [E|E]; unfold dispatch; rewrite E; eexists; reflexivity.
Qed.

(** X10. [dispatch] rejects in one situation only: the path is not an
    introspection path, no handler file exists, and the forward to the
    upstream rejects; the rejection is then the forward's. Once a handler
    file exists, nothing that the import, the handler or the upstream does
    makes [dispatch] reject. *)
Theorem dispatch_rejects_iff cfg h requestUrl req s e :
  fst (dispatch cfg h requestUrl req s) = Thrown e
  <-> ordinaryPath requestUrl
      /\ existsSync h (modulePathOf cfg h requestUrl) = false
      /\ fetch h (targetOf cfg requestUrl) (initFor req s) = Thrown e.
Proof.
  destruct (ordinaryPath_dec requestUrl) as [Hord|Hspecial].
  - destruct (dispatch cfg h requestUrl req s) as [o s'] eqn:Hd.
    revert Hd. run_dispatch Hord; intros [= <- <-]; cbn [fst].
    + split; [discriminate | intros (_ & [=] & _)].
    + split; [discriminate | intros (_ & [=] & _)].
    + split; [|intros (_ & [=] & _)].
      destruct (fetch h _ _); discriminate.
    + split; [|intros (_ & [=] & _)].
      destruct (fetch h _ _); discriminate.
    + split; [|intros (_ & [=] & _)].
      destruct (fetch h _ _); discriminate.
    + split; [intros H; repeat split; assumption || apply Hord
             | intros (_ & _ & H); exact H].
  - destruct (dispatch_introspection cfg h requestUrl req s Hspecial) as [r Hr].
    rewrite Hr. cbn [fst]. split; [discriminate|].
    intros ([H1 H2] & _). destruct Hspecial; contradiction.
Qed.

(** X11. The interactions of one call of [dispatch], in order, are of one
    of six shapes: none; file check, forward; file check, import; file check,
    import, invocation; file check, import, invocation, diagnostic, forward;
    file check, import, diagnostic, forward. So there is at most one import,
    one invocation, one diagnostic and one forward, nothing is retried, and a
    diagnostic is always followed at once by the forward, which ends the
    call. *)
Theorem dispatch_interaction_bounds cfg h requestUrl req s :
  exists evs,
    trace (snd (dispatch cfg h requestUrl req s)) = (trace s ++ evs)%list
    /\ (map kindOf evs = []
        \/ map kindOf evs = [FileCheck; Forward]
        \/ map kindOf evs = [FileCheck; Load]
        \/ map kindOf evs = [FileCheck; Load; Invocation]
        \/ map kindOf evs = [FileCheck; Load; Invocation; Diagnostic; Forward]
        \/ map kindOf evs = [FileCheck; Load; Diagnostic; Forward])
    /\ count isImportModule evs <= 1
    /\ count isInvoke evs <= 1
    /\ count isFetch evs <= 1
    /\ count isConsoleError evs <= count isFetch evs.
Proof.
  destruct (ordinaryPath_dec requestUrl) as [Hord|Hspecial].
  - destruct (dispatch cfg h requestUrl req s) as [o s'] eqn:Hd.
    revert Hd. run_dispatch Hord; intros [= <- <-]; cbn [snd trace];
      repeat (rewrite trace_emit || rewrite afterBody_trace);
      cbn [trace]; rewrite <- ?app_assoc;
      eexists; (split; [reflexivity|]); unfold count, handlerFailed;
      (split; [cbn; tauto | simpl; lia]).
  - destruct (dispatch_introspection cfg h requestUrl req s Hspecial) as [r Hr].
    rewrite Hr. exists []. cbn [snd]. rewrite app_nil_r.
    split; [reflexivity|]. split; [left; reflexivity|].
    unfold count. simpl. lia.
Qed.

(** X12. [dispatch] either leaves the inbound stream unread or drains it; for
    GET and HEAD it never reads it, whatever the host does. *)
Theorem dispatch_stream cfg h requestUrl req s :
  (inbound (snd (dispatch cfg h requestUrl req s)) = inbound s
   \/ inbound (snd (dispatch cfg h requestUrl req s)) = [])
  /\ (JsString.includes ["GET"; "HEAD"] (req_method req) = true ->
      inbound (snd (dispatch cfg h requestUrl req s)) = inbound s).
Proof.
  assert (Hib : inbound (snd (dispatch cfg h requestUrl req s)) = inbound s
                \/ inbound (snd (dispatch cfg h requestUrl req s))
                   = inbound (afterBody req s)).
  { destruct (ordinaryPath_dec requestUrl) as [Hord|Hspecial].
    - destruct (dispatch cfg h requestUrl req s) as [o s'] eqn:Hd.
      revert Hd. run_dispatch Hord; intros [= <- <-]; cbn [snd inbound];
        rewrite ?afterBody_emit, ?afterBody_idem; cbn [emit inbound];
        rewrite ?afterBody_emit, ?afterBody_idem; cbn [emit inbound];
        auto.
    - destruct (dispatch_introspection cfg h requestUrl req s Hspecial)
        as [r Hr].
      rewrite Hr. left. reflexivity. }
  split.
  - destruct Hib as [E|E]; [left; exact E|].
    rewrite E. unfold afterBody.
    destruct (JsString.includes _ _); [left | right]; reflexivity.
  - intros Hget. destruct Hib as [E|E]; [exact E|].
    rewrite E. unfold afterBody. rewrite Hget. reflexivity.
Qed.

Lemma dispatch_stream_witness :
  inbound (snd (dispatch Scenario.cfg Scenario.hostThrowing
                  (req_url Cases.getWeather) Cases.getWeather
                  Scenario.arrival))
  = inbound Scenario.arrival.
Proof.
  apply (proj2 (dispatch_stream Scenario.cfg Scenario.hostThrowing
                  (req_url Cases.getWeather) Cases.getWeather
                  Scenario.arrival)).
  reflexivity.
Defined.

(** ** The server callback *)



(** X14. Any rejection that leaves [dispatch] is caught by the callback: it
    writes one "[local-api] fatal" diagnostic with the error and answers 500
    with the JSON body of [{ error: 'Internal server error' }]. *)
Theorem callback_converts_rejection cfg h req s e s' :
  JsString.startsWith (pathname (req_url req)) "/api/" = true ->
  dispatch cfg h (req_url req) req s = (Thrown e, s') ->
  createServerCallback cfg h req s
  = (Returned {| written_status := 500;
                 written_headers := [("content-type", "application/json")];
                 written_body :=
                   list_byte_of_string
                     (JSON.stringify (errorObject "Internal server error")) |},
     {| inbound := inbound s';
        trace := (trace s'
                  ++ [ConsoleError ["[local-api] fatal"; errorMessage e]])%list |}).
Proof.
  intros Hin Hd. rewrite (callback_catches cfg h req s e s' Hin Hd).
  reflexivity.
Qed.

Lemma callback_converts_rejection_witness :
  written_status
    (match fst (createServerCallback Scenario.cfg Cases.hostUnloadableOffline
                  Cases.postNews Scenario.arrival) with
     | Returned w => w
     | Thrown _ => {| written_status := 0; written_headers := [];
                      written_body := [] |}
     end) = 500%Z.
Proof.
  rewrite (callback_converts_rejection Scenario.cfg Cases.hostUnloadableOffline
             Cases.postNews Scenario.arrival (TypeError "fetch failed")
             (snd (dispatch Scenario.cfg Cases.hostUnloadableOffline
                     (req_url Cases.postNews) Cases.postNews
                     Scenario.arrival))).
  - reflexivity.
  - reflexivity.
  - reflexivity.
Defined.

(** X15. The callback never rejects: for every host, request and state it
    ends by writing a response, whose status is 404, 500, or the status of
    the response that [dispatch] returned. *)
Theorem callback_always_answers cfg h req s :
  exists w s',
    createServerCallback cfg h req s = (Returned w, s')
    /\ (written_status w = 404%Z
        \/ written_status w = 500%Z
        \/ exists r, fst (dispatch cfg h (req_url req) req s) = Returned r
                     /\ written_status w = status r
                     /\ written_body w = body r).
Proof.
  destruct (JsString.startsWith (pathname (req_url req)) "/api/") eqn:Hin.
  - destruct (dispatch cfg h (req_url req) req s) as [[r|e] s'] eqn:Hd.
    + eexists _, _. split; [apply (callback_relays _ _ _ _ _ _ Hin Hd)|].
      right. right. exists r. repeat split.
    + eexists _, _. split; [apply (callback_catches _ _ _ _ _ _ Hin Hd)|].
      right. left. reflexivity.
  - eexists _, _. split.
    + unfold createServerCallback. rewrite Hin. reflexivity.
    + left. reflexivity.
Qed.

(** * Further properties of the client runtime module *)

(** X16. [getRemoteApiBaseUrl]: a configured (non-empty) remote override is
    returned with one trailing slash removed, whatever the variant; without
    an override the variant "tech" gives "https://tech.worldmonitor.app", and
    the variants "full" and "world", like an unset or empty variant, give
    "https://worldmonitor.app". *)
Theorem getRemoteApiBaseUrl_cases (env : ImportMetaEnv) :
  (forall o, env !! "VITE_TAURI_REMOTE_API_BASE_URL" = Some o -> o <> "" ->
     (forall b, o = b +:+ "/" -> getRemoteApiBaseUrl env = b)
     /\ ((forall t, o <> t +:+ "/") -> getRemoteApiBaseUrl env = o))
  /\ (env !! "VITE_TAURI_REMOTE_API_BASE_URL" = None
      \/ env !! "VITE_TAURI_REMOTE_API_BASE_URL" = Some "" ->
      (env !! "VITE_VARIANT" = Some "tech" ->
       getRemoteApiBaseUrl env = "https://tech.worldmonitor.app")
      /\ (env !! "VITE_VARIANT" = None \/ env !! "VITE_VARIANT" = Some ""
          \/ env !! "VITE_VARIANT" = Some "full"
          \/ env !! "VITE_VARIANT" = Some "world" ->
          getRemoteApiBaseUrl env = "https://worldmonitor.app")).
Proof.
  unfold getRemoteApiBaseUrl. split.
  - intros o -> Hne. apply truthy_true in Hne. rewrite Hne. split.
    + intros b ->. apply normalizeBaseUrl_strips.
    + apply normalizeBaseUrl_keeps.
  - intros Hno.
    assert (E : match env !! "VITE_TAURI_REMOTE_API_BASE_URL" with
                | Some o => JsString.truthy o
                | None => false
                end = false)
      by (destruct Hno as [-> | ->]; reflexivity).
    split.
    + intros Hv. rewrite Hv.
      destruct Hno as [-> | ->]; reflexivity.
    + intros Hv.
      destruct Hv as [Hv|[Hv|[Hv|Hv]]]; rewrite Hv;
        destruct Hno as [-> | ->]; reflexivity.
Qed.

Lemma getRemoteApiBaseUrl_cases_witness :
  getRemoteApiBaseUrl
    (<["VITE_TAURI_REMOTE_API_BASE_URL" := "https://eu.example/"]>
       (<["VITE_VARIANT" := "tech"]> ∅))
  = "https://eu.example"
  /\ getRemoteApiBaseUrl (<["VITE_VARIANT" := "tech"]> ∅)
     = "https://tech.worldmonitor.app"
  /\ getRemoteApiBaseUrl ∅ = "https://worldmonitor.app".
Proof.
  split; [|split].
  - apply (proj1 (getRemoteApiBaseUrl_cases _) "https://eu.example/").
    + reflexivity.
    + discriminate.
    + reflexivity.
  - apply (proj2 (getRemoteApiBaseUrl_cases (<["VITE_VARIANT" := "tech"]> ∅))).
    + left. reflexivity.
    + reflexivity.
  - apply (proj2 (getRemoteApiBaseUrl_cases ∅)).
    + left. reflexivity.
    + left. reflexivity.
Defined.

Lemma hasProperty_insert_ne (window : gmap string JsValue) key key' v :
  key <> key' -> hasProperty (<[key := v]> window) key' = hasProperty window key'.
Proof. intros H. unfold hasProperty. rewrite lookup_insert_ne by exact H. reflexivity. Qed.

(** X17. A call of [installRuntimeFetchPatch] never changes what the other
    functions of the module compute: [isDesktopRuntime], [getApiBaseUrl] and
    [toRuntimeUrl] give the same results before and after it. *)
Theorem install_keeps_runtime (env : ImportMetaEnv) (g : Global) :
  let g1 := snd (installRuntimeFetchPatch env g) in
  isDesktopRuntime g1 = isDesktopRuntime g
  /\ getApiBaseUrl env g1 = getApiBaseUrl env g
  /\ forall path, toRuntimeUrl env g1 path = toRuntimeUrl env g path.
Proof.
  cbv zeta.
  assert (Hd : isDesktopRuntime (snd (installRuntimeFetchPatch env g))
               = isDesktopRuntime g).
  { destruct (install_cases env g) as [E|(window & f & -> & Ef & E)].
    - rewrite E. reflexivity.
    - rewrite E. cbn [snd isDesktopRuntime].
      rewrite !hasProperty_insert_ne by discriminate. reflexivity. }
  split; [exact Hd|].
  assert (Hb : getApiBaseUrl env (snd (installRuntimeFetchPatch env g))
               = getApiBaseUrl env g)
    by (unfold getApiBaseUrl; rewrite Hd; reflexivity).
  split; [exact Hb|].
  intros path. unfold toRuntimeUrl. rewrite Hb. reflexivity.
Qed.

(** X18. On a desktop window that is not yet marked and holds a fetch
    function, the call returns normally, wraps that function with the local
    base of [getApiBaseUrl] and the remote base of [getRemoteApiBaseUrl],
    sets [__wmFetchPatched] to [true], and touches no other property. *)
Theorem install_patches (env : ImportMetaEnv) (window : gmap string JsValue)
    (f : FetchFunction) :
  isDesktopRuntime (Some window) = true ->
  truthy (getProperty window "__wmFetchPatched") = false ->
  window !! "fetch" = Some (JsFetch f) ->
  exists window' : gmap string JsValue,
    installRuntimeFetchPatch env (Some window) = (Returned tt, Some window')
    /\ window' !! "fetch"
       = Some (JsFetch (PatchedFetch f (getApiBaseUrl env (Some window))
                          (getRemoteApiBaseUrl env)))
    /\ window' !! "__wmFetchPatched" = Some (JsBoolean true)
    /\ forall key, key <> "fetch" -> key <> "__wmFetchPatched" ->
         window' !! key = window !! key.
Proof.
  intros Hd Hm Hf. unfold installRuntimeFetchPatch.
  rewrite Hd, Hm, Hf. cbn [negb orb].
  eexists. split; [reflexivity|]. split; [|split].
  - rewrite lookup_insert_ne by discriminate. apply lookup_insert_eq.
  - apply lookup_insert_eq.
  - intros key H1 H2.
    rewrite lookup_insert_ne by congruence.
    rewrite lookup_insert_ne by congruence. reflexivity.
Qed.

Lemma install_patches_witness :
  fetchDepth (snd (installRuntimeFetchPatch Scenario.override Scenario.desktop))
  = 1.
Proof.
  destruct (install_patches Scenario.override
              (<["__TAURI_INTERNALS__" := JsObject]>
                 (<["fetch" := JsFetch NativeFetch]> ∅)) NativeFetch)
    as (window' & Hrun & Hfetch & _).
  - reflexivity.
  - reflexivity.
  - reflexivity.
  - unfold Scenario.desktop. rewrite Hrun. cbn [snd fetchDepth].
    rewrite Hfetch. reflexivity.
Defined.

(** ** The installed fetch *)

Lemma startsWith_api_slash url :
  JsString.startsWith url "/api/" = true -> JsString.startsWith url "/" = true.
Proof.
  intros H. apply startsWith_app in H as [t ->]. reflexivity.
Qed.

Lemma toRuntimeUrl_api env g url :
  isDesktopRuntime g = true ->
  JsString.startsWith url "/api/" = true ->
  toRuntimeUrl env g url = getApiBaseUrl env g +:+ url.
Proof.
  intros Hd Hu. unfold toRuntimeUrl.
  rewrite (startsWith_api_slash url Hu). cbn [negb].
  destruct (getApiBaseUrl env g); reflexivity.
Qed.

Section InstalledFetch.

Variable env : ImportMetaEnv.
Variable window : gmap string JsValue.
Variable network : Network.

Hypothesis desktop : isDesktopRuntime (Some window) = true.
Hypothesis unmarked : truthy (getProperty window "__wmFetchPatched") = false.
Hypothesis native : window !! "fetch" = Some (JsFetch NativeFetch).

Lemma installed_fetch :
  fetchOf (snd (installRuntimeFetchPatch env (Some window)))
  = Some (PatchedFetch NativeFetch (getApiBaseUrl env (Some window))
            (getRemoteApiBaseUrl env)).
Proof.
  unfold installRuntimeFetchPatch. rewrite desktop, unmarked, native.
  cbn [negb orb snd fetchOf].
  rewrite lookup_insert_ne by discriminate. rewrite lookup_insert_eq.
  reflexivity.
Qed.

(** X19. Once the patch is installed on a desktop window, a fetch whose URL
    does not start with "/api/" is the browser's own fetch of the same input
    and init: one native call, its outcome returned. *)
Theorem installed_fetch_passes_through input init :
  JsString.startsWith (urlOfInput input) "/api/" = false ->
  exists f,
    fetchOf (snd (installRuntimeFetchPatch env (Some window))) = Some f
    /\ windowFetch network f input init
       = (network input init, [NativeCall input init]).
Proof.
  intros Hu. eexists. split; [apply installed_fetch|].
  cbn [windowFetch]. rewrite Hu. reflexivity.
Qed.

(** X20. An "/api/" URL is first requested from the local gateway, at the
    URL that [toRuntimeUrl] gives for it; when that request is answered the
    answer is returned whatever its status, with no warning and no request to
    the remote origin. *)
Theorem installed_fetch_prefers_local input init r :
  JsString.startsWith (urlOfInput input) "/api/" = true ->
  network (InfoString (toRuntimeUrl env (Some window) (urlOfInput input))) init
  = Returned r ->
  exists f,
    fetchOf (snd (installRuntimeFetchPatch env (Some window))) = Some f
    /\ windowFetch network f input init
       = (Returned r,
          [NativeCall
             (InfoString (toRuntimeUrl env (Some window) (urlOfInput input)))
             init]).
Proof.
  intros Hu Hr. eexists. split; [apply installed_fetch|].
  rewrite (toRuntimeUrl_api env (Some window) _ desktop Hu) in *.
  cbn [windowFetch]. rewrite Hu. cbn [negb]. rewrite Hr. reflexivity.
Qed.

(** X21. When the local request of an "/api/" URL rejects, one warning
    naming the URL and the error is written and the same path is requested
    once from the remote base of [getRemoteApiBaseUrl] with the same init;
    the outcome of that second request, response or rejection, is the
    outcome of the fetch. *)
Theorem installed_fetch_falls_back input init e :
  JsString.startsWith (urlOfInput input) "/api/" = true ->
  network (InfoString (toRuntimeUrl env (Some window) (urlOfInput input))) init
  = Thrown e ->
  exists f,
    fetchOf (snd (installRuntimeFetchPatch env (Some window))) = Some f
    /\ windowFetch network f input init
       = (network
            (InfoString (getRemoteApiBaseUrl env +:+ urlOfInput input)) init,
          [NativeCall
             (InfoString (toRuntimeUrl env (Some window) (urlOfInput input)))
             init;
           ConsoleWarn
             ["[runtime] Local API fetch failed for " +:+ urlOfInput input
              +:+ ", falling back to cloud"; errorMessage e];
           NativeCall
             (InfoString (getRemoteApiBaseUrl env +:+ urlOfInput input))
             init]).
Proof.
  intros Hu He. eexists. split; [apply installed_fetch|].
  rewrite (toRuntimeUrl_api env (Some window) _ desktop Hu) in *.
  cbn [windowFetch]. rewrite Hu. cbn [negb]. rewrite He. reflexivity.
Qed.

End InstalledFetch.

Lemma installed_fetch_passes_through_witness :
  exists f,
    fetchOf (snd (installRuntimeFetchPatch ∅ Scenario.desktop)) = Some f
    /\ windowFetch Cases.onlyRemote f (InfoURL "https://example.org/a") None
       = (Cases.onlyRemote (InfoURL "https://example.org/a") None,
          [NativeCall (InfoURL "https://example.org/a") None]).
Proof.
  apply (installed_fetch_passes_through ∅
           (<["__TAURI_INTERNALS__" := JsObject]>
              (<["fetch" := JsFetch NativeFetch]> ∅)) Cases.onlyRemote);
    reflexivity.
Defined.

Lemma installed_fetch_prefers_local_witness :
  exists f,
    fetchOf (snd (installRuntimeFetchPatch ∅ Scenario.desktop)) = Some f
    /\ windowFetch Cases.allUp f (InfoString "/api/news") None
       = (Returned Scenario.cloudResponse,
          [NativeCall
             (InfoString (toRuntimeUrl ∅ Scenario.desktop "/api/news")) None]).
Proof.
  refine (installed_fetch_prefers_local ∅
            (<["__TAURI_INTERNALS__" := JsObject]>
               (<["fetch" := JsFetch NativeFetch]> ∅)) Cases.allUp
            _ _ _ (InfoString "/api/news") None
            Scenario.cloudResponse _ _);
    reflexivity.
Defined.

Lemma installed_fetch_falls_back_witness :
  exists f,
    fetchOf (snd (installRuntimeFetchPatch ∅ Scenario.desktop)) = Some f
    /\ fst (windowFetch Cases.onlyRemote f (InfoString "/api/news") None)
       = Returned Scenario.cloudResponse.
Proof.
  assert (H : exists f,
    fetchOf (snd (installRuntimeFetchPatch ∅ Scenario.desktop)) = Some f
    /\ windowFetch Cases.onlyRemote f (InfoString "/api/news") None
       = (Cases.onlyRemote
            (InfoString (getRemoteApiBaseUrl ∅ +:+ "/api/news")) None,
          [NativeCall
             (InfoString (toRuntimeUrl ∅ Scenario.desktop "/api/news")) None;
           ConsoleWarn
             ["[runtime] Local API fetch failed for " +:+ "/api/news"
              +:+ ", falling back to cloud";
              errorMessage (TypeError "Failed to fetch")];
           NativeCall
             (InfoString (getRemoteApiBaseUrl ∅ +:+ "/api/news")) None])).
  { refine (installed_fetch_falls_back ∅
              (<["__TAURI_INTERNALS__" := JsObject]>
                 (<["fetch" := JsFetch NativeFetch]> ∅)) Cases.onlyRemote
              _ _ _ (InfoString "/api/news") None
              (TypeError "Failed to fetch") _ _);
      reflexivity. }
  destruct H as (f & Hf & Hrun).
  exists f. split; [exact Hf|]. rewrite Hrun. reflexivity.
Defined.
